(** * go-mcprotocol: frame encoder, frame parser and health check

    A shallow embedding of the Go package [mcp] (MC protocol client for
    MELSEC PLCs): the request builders of [station] / [station3E]
    (station.go), the response parsers [parser_3E] and [parser_1E]
    (response_parser.go) and [client3E.HealthCheck] (client).

    Go values are modelled as follows.
    - [string]: Rocq [string] (a byte sequence, [len] = [String.length]).
    - [byte]: [Byte.byte]; [[]byte]: a [slice], the visible elements
      together with the rest of the backing array up to the capacity,
      because a Go slice expression [s[lo:hi]] is checked against
      [cap(s)], not [len(s)].
    - [int], [int64]: [Z]; the only arithmetic that can leave the range
      is [2*numPoints], whose wrap-around is written out.
    - a run-time panic: the [Panic] outcome of the [Go] monad.
    - [map[string]string]: [gmap string string]; a missing key reads as
      the zero value [""]. *)

From Stdlib Require Import ZArith Lia String Ascii.
From Stdlib.Strings Require Import Byte.
From stdpp Require Import base gmap strings list.


Local Open Scope Z_scope.

(** ** Outcomes of Go code: a value or a run-time panic *)

Inductive Go (A : Type) : Type :=
| Return (a : A)
| Panic (msg : string).
Arguments Return {A} a.
Arguments Panic {A} msg.

#[global] Instance Go_ret : MRet Go := fun A a => Return a.
#[global] Instance Go_bind : MBind Go := fun A B f m =>
  match m with
  | Return a => f a
  | Panic msg => Panic msg
  end.

(** ** Errors

    Go's [error] interface, as a tagged union of the concrete errors that
    can reach the code below: [errors.New] / [fmt.Errorf] values, the two
    errors of [encoding/hex], and whatever the TCP connection reports. *)

Inductive error : Type :=
| errorString (msg : string)
| hex_InvalidByteError (c : ascii)
| hex_ErrLength
| net_Error (msg : string).

Definition errors_New (msg : string) : error := errorString msg.
Definition fmt_Errorf (msg : string) : error := errorString msg.

(** ** Integers *)

Definition MaxInt64 : Z := 2 ^ 63 - 1.
Definition MinInt64 : Z := - 2 ^ 63.

Definition is_int64 (z : Z) : Prop := MinInt64 <= z <= MaxInt64.

(** Two's complement wrap-around of an [int64] result. *)
Definition wrap64 (z : Z) : Z := (z + 2 ^ 63) mod 2 ^ 64 - 2 ^ 63.

(** The conversion [uint64(v)] of an [int64]. *)
Definition uint64 (v : Z) : Z := v mod 2 ^ 64.

(** The truncating conversion [byte(v)]. *)
Definition byte_of_Z (z : Z) : byte :=
  match Byte.of_N (Z.to_N (z mod 256)) with
  | Some b => b
  | None => x00
  end.

Definition Z_of_byte (b : byte) : Z := Z.of_N (Byte.to_N b).

(** ** Slices *)

Record slice : Type := mkSlice {
  elems : list byte;   (* s[0], ..., s[len(s)-1] *)
  spare : list byte    (* the backing array from len(s) up to cap(s) *)
}.

Definition len (s : slice) : Z := Z.of_nat (length (elems s)).
Definition cap (s : slice) : Z := Z.of_nat (length (elems s ++ spare s)).

Definition nil_slice : slice := mkSlice [] [].

(** A slice literal, or any slice whose capacity equals its length. *)
Definition slice_of (bs : list byte) : slice := mkSlice bs [].

(** [make([]byte, n, c)]: [n] zero bytes with capacity [c]. *)
Definition make (n c : nat) : slice :=
  mkSlice (replicate n x00) (replicate (c - n) x00).

(** [s[lo:hi]]: in range when [0 <= lo <= hi <= cap(s)]. *)
Definition slice_expr (s : slice) (lo hi : Z) : Go slice :=
  if (0 <=? lo) && (lo <=? hi) && (hi <=? cap s) then
    let arr := elems s ++ spare s in
    Return (mkSlice (drop (Z.to_nat lo) (take (Z.to_nat hi) arr))
                    (drop (Z.to_nat hi) arr))
  else Panic "runtime error: slice bounds out of range".

(** [s[lo:]]: the upper bound defaults to [len(s)]. *)
Definition slice_from (s : slice) (lo : Z) : Go slice :=
  slice_expr s lo (len s).

(** [s[i]]: in range when [0 <= i < len(s)]. *)
Definition slice_index (s : slice) (i : Z) : Go byte :=
  if (0 <=? i) && (i <? len s) then
    match elems s !! Z.to_nat i with
    | Some b => Return b
    | None => Panic "runtime error: index out of range"
    end
  else Panic "runtime error: index out of range".

(** ** [fmt.Sprintf("%X", ...)] *)

(** [fmt]'s upper-case digit table. *)
Definition udigits : string := "0123456789ABCDEF".

Definition digit (n : Z) : ascii :=
  match String.get (Z.to_nat n) udigits with
  | Some c => c
  | None => "0"%char
  end.

(** [%X] of a byte slice: two upper-case hex digits per byte. *)
Fixpoint hex_of_bytes (bs : list byte) : string :=
  match bs with
  | [] => ""
  | b :: bs' =>
      String (digit (Z.shiftr (Z_of_byte b) 4))
        (String (digit (Z.land (Z_of_byte b) 15)) (hex_of_bytes bs'))
  end.

Definition Sprintf_X (s : slice) : string := hex_of_bytes (elems s).

(** [%X] of a single [byte] operand: the operand is formatted as an
    integer in base 16, without padding. *)
Definition Sprintf_X_uint8 (b : byte) : string :=
  let u := Z_of_byte b in
  if u <? 16 then String (digit u) ""
  else String (digit (Z.shiftr u 4)) (String (digit (Z.land u 15)) "").

(** ** [bytes.Buffer] and [encoding/binary]

    Only [new(bytes.Buffer)], [Write] and [Bytes] are used, and nothing
    is ever read from a buffer, so its read offset stays 0 and the
    buffer is its [buf] slice.  [Write] follows the library: the bytes
    go into spare capacity when there is enough of it
    ([tryGrowByReslice]); the first allocation of an empty buffer
    receiving at most [smallBufferSize] bytes is
    [make([]byte, n, smallBufferSize)]; otherwise [growSlice] appends to
    a new array of [max(len+n, 2*cap)] bytes, whose capacity the
    allocator rounds up to its size class ([roundupsize]): the smallest
    class that holds the request up to 32768 bytes, whole pages of 8192
    bytes above. *)

Definition class_to_size : list Z :=
  [8; 16; 24; 32; 48; 64; 80; 96; 112; 128; 144; 160; 176; 192; 208; 224;
   240; 256; 288; 320; 352; 384; 416; 448; 480; 512; 576; 640; 704; 768;
   896; 1024; 1152; 1280; 1408; 1536; 1792; 2048; 2304; 2688; 3072; 3200;
   3456; 4096; 4864; 5120; 5376; 6144; 6528; 6784; 6912; 8192; 9472; 9728;
   10240; 10880; 12288; 13568; 14336; 16384; 18432; 19072; 20480; 21760;
   24576; 27264; 28672; 32768].

Definition pageSize : Z := 8192.

Definition roundupsize (size : Z) : Z :=
  match find (fun c => size <=? c) class_to_size with
  | Some c => c
  | None => (size + pageSize - 1) / pageSize * pageSize
  end.

Definition Buffer : Type := slice.

Definition smallBufferSize : nat := 64.

Definition new_Buffer : Buffer := nil_slice.

Definition Buffer_Write (b : Buffer) (p : list byte) : Buffer :=
  let n := length p in
  if (n <=? length (spare b))%nat then
    mkSlice (elems b ++ p) (drop n (spare b))
  else if (length (elems b ++ spare b) =? 0)%nat && (n <=? smallBufferSize)%nat then
    mkSlice p (replicate (smallBufferSize - n) x00)
  else
    let c := Nat.max (length (elems b) + n) (2 * length (elems b ++ spare b)) in
    mkSlice (elems b ++ p)
            (replicate (Z.to_nat (roundupsize (Z.of_nat c)) - (length (elems b) + n)) x00).

Definition Buffer_Bytes (b : Buffer) : slice := b.

(** [binary.LittleEndian.PutUint64]. *)
Definition PutUint64 (v : Z) : list byte :=
  map (fun i => byte_of_Z (Z.shiftr v (8 * i))) [0; 1; 2; 3; 4; 5; 6; 7].

(** [binary.Write(w, binary.LittleEndian, v)] for [v] of type [int64]. *)
Definition binary_Write_int64 (w : Buffer) (v : Z) : Buffer :=
  Buffer_Write w (PutUint64 (uint64 v)).

(** [binary.Write(w, binary.LittleEndian, data)] for [data] of type
    [[]byte]: the bytes are written as they are. *)
Definition binary_Write_bytes (w : Buffer) (data : slice) : Buffer :=
  Buffer_Write w (elems data).

(** ** station.go: constants and the device code table *)

Definition SUB_HEADER : string := "5000".

Definition HEALTH_CHECK_COMMAND : string := "1906".
Definition HEALTH_CHECK_SUBCOMMAND : string := "0000".

Definition READ_COMMAND : string := "0104".
Definition READ_SUB_COMMAND : string := "0000".
Definition BIT_READ_SUB_COMMAND : string := "0100".

Definition WRITE_COMMAND : string := "0114".
Definition WRITE_SUB_COMMAND : string := "0000".
Definition BIT_WRITE_SUB_COMMAND : string := "0100".

Definition MONITORING_TIMER : string := "1000".

Definition DeviceCodes_list : list (string * string) :=
  [("X", "9C"); ("Y", "9D"); ("M", "90"); ("L", "92"); ("F", "93");
   ("V", "94"); ("B", "A0"); ("W", "B4"); ("D", "A8")].

Definition DeviceCodes : gmap string string := list_to_map DeviceCodes_list.

(** [DeviceCodes[deviceName]]: the zero value [""] for a missing key. *)
Definition DeviceCodes_at (deviceName : string) : string :=
  default "" (DeviceCodes !! deviceName).

(** ** station.go: the station and its request builders

    [station] (station.go) and [station3E] (the later revision) have the
    same four fields, and their builder methods have the same bodies. *)

Record station : Type := mkStation {
  networkNum : string;
  pcNum : string;
  unitIONum : string;
  unitStationNum : string
}.

Definition NewStation (networkNum pcNum unitIONum unitStationNum : string) : station :=
  mkStation networkNum pcNum unitIONum unitStationNum.

Definition NewLocalStation : station := mkStation "00" "FF" "FF03" "00".

Definition strlen (s : string) : Z := Z.of_nat (String.length s).

Definition BuildHealthCheckRequest (h : station) : Go string :=
  let returnDataNum := "0500" in
  let returnData := "4142434445" in
  let requestStr :=
    HEALTH_CHECK_COMMAND +:+ HEALTH_CHECK_SUBCOMMAND +:+ returnDataNum +:+ returnData in
  let requestCharLen := Z.quot (strlen (MONITORING_TIMER +:+ requestStr)) 2 in
  let dataLenBuff := binary_Write_int64 new_Buffer requestCharLen in
  dataLenB ← slice_expr (Buffer_Bytes dataLenBuff) 0 2;
  let dataLen := Sprintf_X dataLenB in
  Return (SUB_HEADER +:+ networkNum h +:+ pcNum h +:+ unitIONum h +:+
          unitStationNum h +:+ dataLen +:+ MONITORING_TIMER +:+ requestStr).

Definition buildReadRequestHelper (h : station) (deviceName : string)
    (offset numPoints : Z) (subCommand : string) : Go string :=
  let deviceCode := DeviceCodes_at deviceName in
  let offsetBuff := binary_Write_int64 new_Buffer offset in
  offsetB ← slice_expr (Buffer_Bytes offsetBuff) 0 3;
  let offsetHex := Sprintf_X offsetB in
  let pointsBuff := binary_Write_int64 new_Buffer numPoints in
  pointsB ← slice_expr (Buffer_Bytes pointsBuff) 0 2;
  let points := Sprintf_X pointsB in
  let requestCharLen :=
    Z.quot (strlen (MONITORING_TIMER +:+ READ_COMMAND +:+ READ_SUB_COMMAND +:+
                    deviceCode +:+ offsetHex +:+ points)) 2 in
  let dataLenBuff := binary_Write_int64 new_Buffer requestCharLen in
  dataLenB ← slice_expr (Buffer_Bytes dataLenBuff) 0 2;
  let dataLen := Sprintf_X dataLenB in
  Return (SUB_HEADER +:+ networkNum h +:+ pcNum h +:+ unitIONum h +:+
          unitStationNum h +:+ dataLen +:+ MONITORING_TIMER +:+ READ_COMMAND +:+
          subCommand +:+ offsetHex +:+ deviceCode +:+ points).

Definition BuildReadRequest (h : station) (deviceName : string)
    (offset numPoints : Z) : Go string :=
  buildReadRequestHelper h deviceName offset numPoints READ_SUB_COMMAND.

Definition BuildBitReadRequest (h : station) (deviceName : string)
    (offset numPoints : Z) : Go string :=
  buildReadRequestHelper h deviceName offset numPoints BIT_READ_SUB_COMMAND.

Definition buildWriteRequestHelper (h : station) (deviceName : string)
    (offset numPoints : Z) (writeData : slice) (subCommand : string) : Go string :=
  let deviceCode := DeviceCodes_at deviceName in
  let offsetBuff := binary_Write_int64 new_Buffer offset in
  offsetB ← slice_expr (Buffer_Bytes offsetBuff) 0 3;
  let offsetHex := Sprintf_X offsetB in
  let writeBuff := binary_Write_bytes new_Buffer writeData in
  writeB ← slice_expr (Buffer_Bytes writeBuff) 0 (wrap64 (2 * numPoints));
  let writeHex := Sprintf_X writeB in
  let pointsBuff := binary_Write_int64 new_Buffer numPoints in
  pointsB ← slice_expr (Buffer_Bytes pointsBuff) 0 2;
  let points := Sprintf_X pointsB in
  let requestCharLen :=
    Z.quot (strlen (MONITORING_TIMER +:+ WRITE_COMMAND +:+ WRITE_SUB_COMMAND +:+
                    deviceCode +:+ offsetHex +:+ points +:+ writeHex)) 2 in
  let dataLenBuff := binary_Write_int64 new_Buffer requestCharLen in
  dataLenB ← slice_expr (Buffer_Bytes dataLenBuff) 0 2;
  let dataLen := Sprintf_X dataLenB in
  Return (SUB_HEADER +:+ networkNum h +:+ pcNum h +:+ unitIONum h +:+
          unitStationNum h +:+ dataLen +:+ MONITORING_TIMER +:+ WRITE_COMMAND +:+
          subCommand +:+ offsetHex +:+ deviceCode +:+ points +:+ writeHex).

Definition BuildWriteRequest (h : station) (deviceName : string)
    (offset numPoints : Z) (writeData : slice) : Go string :=
  buildWriteRequestHelper h deviceName offset numPoints writeData WRITE_SUB_COMMAND.

Definition BuildBitWriteRequest (h : station) (deviceName : string)
    (offset numPoints : Z) (writeData : slice) : Go string :=
  buildWriteRequestHelper h deviceName offset numPoints writeData BIT_WRITE_SUB_COMMAND.


(** ** response_parser.go *)

Record Response : Type := mkResponse {
  SubHeader : string;
  NetworkNum : string;
  PCNum : string;
  UnitIONum : string;
  UnitStationNum : string;
  DataLen : string;
  EndCode : string;
  Payload : list byte;
  ErrInfo : list byte
}.

(** The result pair of [Process], a [Response] pointer and an [error]:
    [None] stands for [nil]. *)
Definition result : Type := (option Response * option error)%type.

Definition parser_3E_Process (resp : slice) : Go result :=
  if len resp <? 22 then
    Return (None, Some (errors_New "length must be larger than 22 byte"))
  else
    subHeaderB ← slice_expr resp 0 2;
    networkNumB ← slice_expr resp 2 3;
    pcNumB ← slice_expr resp 3 4;
    unitIONumB ← slice_expr resp 4 6;
    unitStationNumB ← slice_expr resp 6 7;
    dataLenB ← slice_expr resp 7 9;
    endCodeB ← slice_expr resp 9 11;
    payloadB ← slice_from resp 11;
    Return (Some {| SubHeader := Sprintf_X subHeaderB;
                    NetworkNum := Sprintf_X networkNumB;
                    PCNum := Sprintf_X pcNumB;
                    UnitIONum := Sprintf_X unitIONumB;
                    UnitStationNum := Sprintf_X unitStationNumB;
                    DataLen := Sprintf_X dataLenB;
                    EndCode := Sprintf_X endCodeB;
                    Payload := elems payloadB;
                    ErrInfo := [] |}, None).

Definition parser_1E_Process (resp : slice) : Go result :=
  if len resp <? 2 then
    Return (None, Some (errors_New "length must be larger than 2 bytes"))
  else if len resp =? 2 then
    code ← slice_expr resp 0 2;
    Return (None, Some (fmt_Errorf ("PLC returned an error code: " +:+ Sprintf_X code)))
  else
    resp0 ← slice_index resp 0;
    resp1 ← slice_index resp 1;
    payloadB ← slice_from resp 2;
    Return (Some {| SubHeader := Sprintf_X_uint8 resp0;
                    NetworkNum := "";
                    PCNum := "";
                    UnitIONum := "";
                    UnitStationNum := "";
                    DataLen := "";
                    EndCode := Sprintf_X_uint8 resp1;
                    Payload := elems payloadB;
                    ErrInfo := [] |}, None).

Inductive FrameVersion : Type := Frame1E | Frame3E.

Definition NewParser (frameVersion : FrameVersion) : slice -> Go result :=
  match frameVersion with
  | Frame1E => parser_1E_Process
  | Frame3E => parser_3E_Process
  end.

(** ** [encoding/hex]

    [hex.DecodeString]: two hex digits (either case) per byte; the bytes
    decoded so far are returned together with [InvalidByteError] at the
    first character that is not a hex digit, or [ErrLength] for an odd
    length. *)

Definition fromHexChar (c : ascii) : option Z :=
  let n := Z.of_nat (nat_of_ascii c) in
  if (48 <=? n) && (n <=? 57) then Some (n - 48)
  else if (97 <=? n) && (n <=? 102) then Some (n - 97 + 10)
  else if (65 <=? n) && (n <=? 70) then Some (n - 65 + 10)
  else None.

Fixpoint hex_DecodeString (s : string) : list byte * option error :=
  match s with
  | EmptyString => ([], None)
  | String p EmptyString =>
      match fromHexChar p with
      | Some _ => ([], Some hex_ErrLength)
      | None => ([], Some (hex_InvalidByteError p))
      end
  | String p (String q s') =>
      match fromHexChar p, fromHexChar q with
      | None, _ => ([], Some (hex_InvalidByteError p))
      | Some _, None => ([], Some (hex_InvalidByteError q))
      | Some a, Some b =>
          let '(bs, err) := hex_DecodeString s' in
          (byte_of_Z (Z.lor (Z.shiftl a 4) b) :: bs, err)
      end
  end.

(** ** The client: [client3E.HealthCheck]

    The TCP connection is the environment of the call: what [conn.Write]
    answers to the request, and what [conn.Read] delivers into the
    30-byte receive buffer (the received bytes, at most as many as the
    buffer holds) or fails with.  A failure of the connection is the
    text of the network error; it reaches the caller as [net_Error]. *)

Record TCPConn : Type := mkConn {
  conn_Write : list byte -> option string;
  conn_Read : nat -> list byte * option string
}.

Record client3E : Type := mkClient {
  tcpAddr : string;
  stn : station;
  conn : TCPConn
}.

Definition HealthCheck (c : client3E) : Go (option error) :=
  requestStr ← BuildHealthCheckRequest (stn c);
  let '(payload, err) := hex_DecodeString requestStr in
  match err with
  | Some e => Return (Some e)
  | None =>
    match conn_Write (conn c) payload with
    | Some e => Return (Some (net_Error e))
    | None =>
      let readBuff := make 30 30 in
      let '(received, err) := conn_Read (conn c) 30 in
      match err with
      | Some e => Return (Some (net_Error e))
      | None =>
        let data := take 30 received in
        let readLen := Z.of_nat (length data) in
        let readBuff := mkSlice (data ++ drop (length data) (elems readBuff)) [] in
        resp ← slice_expr readBuff 0 readLen;
        if negb (readLen =? 18) then
          Return (Some (errors_New
            ("plc connect test is fail: return length is [" +:+ Sprintf_X resp +:+ "]")))
        else
          header ← slice_expr resp 11 13;
          if negb (String.eqb "0500" (Sprintf_X header)) then
            Return (Some (errors_New
              ("plc connect test is fail: return header is [" +:+ Sprintf_X header +:+ "]")))
          else
            body ← slice_expr resp 13 18;
            if negb (String.eqb "4142434445" (Sprintf_X body)) then
              Return (Some (errors_New
                ("plc connect test is fail: return body is [" +:+ Sprintf_X body +:+ "]")))
            else Return None
      end
    end
  end.

(** ** The client: [Read], [BitRead], [Write], [BitWrite]

    [make([]byte, n)] with a run-time length panics when the length is
    negative or larger than the allocator accepts ([maxAlloc], 2^48
    bytes on 64-bit platforms). *)

Definition maxAlloc : Z := 2 ^ 48.

Definition make_bytes (n : Z) : Go slice :=
  if (0 <=? n) && (n <=? maxAlloc) then Return (make (Z.to_nat n) (Z.to_nat n))
  else Panic "runtime error: makeslice: len out of range".

(** A result pair [([]byte, error)]; the [nil] slice is [nil_slice]. *)
Definition bytes_result : Type := (slice * option error)%type.

Definition readHelper (c : client3E) (requestStr : string) (numPoints : Z)
    : Go bytes_result :=
  let '(payload, err) := hex_DecodeString requestStr in
  match err with
  | Some e => Return (nil_slice, Some e)
  | None =>
    match conn_Write (conn c) payload with
    | Some e => Return (nil_slice, Some (net_Error e))
    | None =>
      readBuff ← make_bytes (wrap64 (22 + wrap64 (2 * numPoints)));
      let '(received, err) := conn_Read (conn c) (length (elems readBuff)) in
      match err with
      | Some e => Return (nil_slice, Some (net_Error e))
      | None =>
        let data := take (length (elems readBuff)) received in
        let readLen := Z.of_nat (length data) in
        let readBuff := mkSlice (data ++ drop (length data) (elems readBuff)) [] in
        resp ← slice_expr readBuff 0 readLen;
        Return (resp, None)
      end
    end
  end.

Definition Read (c : client3E) (deviceName : string) (offset numPoints : Z)
    : Go bytes_result :=
  requestStr ← BuildReadRequest (stn c) deviceName offset numPoints;
  readHelper c requestStr numPoints.

Definition BitRead (c : client3E) (deviceName : string) (offset numPoints : Z)
    : Go bytes_result :=
  requestStr ← BuildBitReadRequest (stn c) deviceName offset numPoints;
  readHelper c requestStr numPoints.

Definition writeHelper (c : client3E) (requestStr : string) : Go bytes_result :=
  let '(payload, err) := hex_DecodeString requestStr in
  match err with
  | Some e => Return (nil_slice, Some e)
  | None =>
    match conn_Write (conn c) payload with
    | Some e => Return (nil_slice, Some (net_Error e))
    | None =>
      let readBuff := make 22 22 in
      let '(received, err) := conn_Read (conn c) 22 in
      match err with
      | Some e => Return (nil_slice, Some (net_Error e))
      | None =>
        let data := take 22 received in
        let readLen := Z.of_nat (length data) in
        let readBuff := mkSlice (data ++ drop (length data) (elems readBuff)) [] in
        resp ← slice_expr readBuff 0 readLen;
        Return (resp, None)
      end
    end
  end.

Definition Write (c : client3E) (deviceName : string) (offset numPoints : Z)
    (writeData : slice) : Go bytes_result :=
  requestStr ← BuildWriteRequest (stn c) deviceName offset numPoints writeData;
  writeHelper c requestStr.

Definition BitWrite (c : client3E) (deviceName : string) (offset numPoints : Z)
    (writeData : slice) : Go bytes_result :=
  requestStr ← BuildBitWriteRequest (stn c) deviceName offset numPoints writeData;
  writeHelper c requestStr.

(** * Vocabulary of the specification *)

(** ** Byte ranges *)

(** The byte range [[lo:hi)] of a buffer. *)
Definition byte_range (lo hi : nat) (l : list byte) : list byte :=
  drop lo (take hi l).

(** ** Parser results and sample buffers *)

(** What [parser_3E.Process] returns for a buffer of at least 22 bytes. *)
Definition parsed_3E (resp : list byte) : Response :=
  {| SubHeader := hex_of_bytes (byte_range 0 2 resp);
     NetworkNum := hex_of_bytes (byte_range 2 3 resp);
     PCNum := hex_of_bytes (byte_range 3 4 resp);
     UnitIONum := hex_of_bytes (byte_range 4 6 resp);
     UnitStationNum := hex_of_bytes (byte_range 6 7 resp);
     DataLen := hex_of_bytes (byte_range 7 9 resp);
     EndCode := hex_of_bytes (byte_range 9 11 resp);
     Payload := drop 11 resp;
     ErrInfo := [] |}.

(** A 21-byte buffer, and a 22-byte buffer whose end code [C0 51] is not
    zero and which carries spare capacity. *)
Definition buffer_21 : slice := slice_of (replicate 21 x5a).
Definition buffer_22_C051 : slice :=
  mkSlice [xd0; x00; x00; xff; xff; x03; x00; x0d; x00; xc0; x51;
           x01; x02; x03; x04; x05; x06; x07; x08; x09; x0a; x0b] [x00; x00].

(** A 22-byte buffer whose end-code bytes (offsets 9 and 10) are zero. *)
Definition buffer_22_ok : slice :=
  slice_of [xd0; x00; x00; xff; xff; x03; x00; x0d; x00; x00; x00;
            x01; x02; x03; x04; x05; x06; x07; x08; x09; x0a; x0b].

(** ** Hex text *)

(** [s] is the hex text of the bytes [bs], as [hex.DecodeString] reads it. *)
Definition decodes (s : string) (bs : list byte) : Prop :=
  hex_DecodeString s = (bs, None).

(** Hex text of a given width in characters: only hex digits. *)
Definition is_hex_char (c : ascii) : bool :=
  match fromHexChar c with Some _ => true | None => false end.

Fixpoint all_hex (s : string) : bool :=
  match s with
  | EmptyString => true
  | String c s' => is_hex_char c && all_hex s'
  end.

Definition hex_text (width : nat) (s : string) : Prop :=
  String.length s = width /\ all_hex s = true.

(** ** Little-endian byte strings *)

(** The low [k] bytes of [v], least significant first. *)
Fixpoint low_bytes (k : nat) (v : Z) : list byte :=
  match k with
  | O => []
  | S k' => byte_of_Z v :: low_bytes k' (v / 256)
  end.

(** The value of a little-endian byte string. *)
Fixpoint le_value (bs : list byte) : Z :=
  match bs with
  | [] => 0
  | b :: bs' => Z_of_byte b + 256 * le_value bs'
  end.

(** ** The layout of a frame *)

(** The frame header: sub-header and station identity. *)
Definition header (h : station) : string :=
  SUB_HEADER +:+ networkNum h +:+ pcNum h +:+ unitIONum h +:+ unitStationNum h.

(** Everything from the monitoring timer to the end of a frame. *)
Definition health_body : string :=
  MONITORING_TIMER +:+ HEALTH_CHECK_COMMAND +:+ HEALTH_CHECK_SUBCOMMAND +:+
  "0500" +:+ "4142434445".

Definition read_body (subCommand deviceName : string) (offset numPoints : Z) : string :=
  MONITORING_TIMER +:+ READ_COMMAND +:+ subCommand +:+
  hex_of_bytes (low_bytes 3 offset) +:+ DeviceCodes_at deviceName +:+
  hex_of_bytes (low_bytes 2 numPoints).

Definition write_body (subCommand deviceName : string) (offset numPoints : Z)
    (payload : list byte) : string :=
  MONITORING_TIMER +:+ WRITE_COMMAND +:+ subCommand +:+
  hex_of_bytes (low_bytes 3 offset) +:+ DeviceCodes_at deviceName +:+
  hex_of_bytes (low_bytes 2 numPoints) +:+ hex_of_bytes payload.

(** A frame: header, the 2-byte data length, body. *)
Definition frame_of (h : station) (body : string) : string :=
  header h +:+ hex_of_bytes (low_bytes 2 (strlen body / 2)) +:+ body.

(** The slice of [writeBuff.Bytes()] the write builders start from. *)
Definition writeBuff_Bytes (writeData : slice) : slice :=
  Buffer_Bytes (binary_Write_bytes new_Buffer writeData).

(** ** Built frames and their fields *)

(** The frames the five public builders return. *)
Inductive built_by (h : station) (frame : string) : Prop :=
| built_health_check :
    BuildHealthCheckRequest h = Return frame -> built_by h frame
| built_read (deviceName : string) (offset numPoints : Z) :
    BuildReadRequest h deviceName offset numPoints = Return frame ->
    built_by h frame
| built_bit_read (deviceName : string) (offset numPoints : Z) :
    BuildBitReadRequest h deviceName offset numPoints = Return frame ->
    built_by h frame
| built_write (deviceName : string) (offset numPoints : Z) (writeData : slice) :
    BuildWriteRequest h deviceName offset numPoints writeData = Return frame ->
    built_by h frame
| built_bit_write (deviceName : string) (offset numPoints : Z) (writeData : slice) :
    BuildBitWriteRequest h deviceName offset numPoints writeData = Return frame ->
    built_by h frame.

(** The data length field of a frame, by position: the four characters
    after the header. *)
Definition frame_dataLength (h : station) (frame : string) : string :=
  substring (String.length (header h)) 4 frame.

(** Everything from the monitoring timer to the end of the frame. *)
Definition frame_body (h : station) (frame : string) : string :=
  substring (String.length (header h) + 4)
            (String.length frame - (String.length (header h) + 4)) frame.

Definition write_frame_D_100_2 : string :=
  "500000FFFF030010001000011400006400" +:+ "00A80200" +:+ "01020304".

(** A write of 32762 points with a payload of 65524 bytes: the body is
    65536 bytes long. *)
Definition writeData_65524 : slice := slice_of (replicate (Z.to_nat 65524) x00).

(** ** Decoded lengths *)

(** [s] decodes, without error, to [k] bytes. *)
Definition decodes_to (k : nat) (s : string) : Prop :=
  exists bs : list byte, decodes s bs /\ length bs = k.

(** The station identity fields have their documented widths. *)
Definition documented_widths (h : station) : Prop :=
  hex_text 2 (networkNum h) /\ hex_text 2 (pcNum h)
  /\ hex_text 4 (unitIONum h) /\ hex_text 2 (unitStationNum h).

(** ** Health check responses *)

(** The echo the health check looks for: the length header "0500" at
    [11:13) and the bytes of "ABCDE" at [13:18). *)
Definition echo : list byte := [x05; x00; x41; x42; x43; x44; x45].

(** The response passes the verification of [HealthCheck]. *)
Definition health_check_ok (resp : list byte) : Prop :=
  length resp = 18%nat
  /\ hex_of_bytes (byte_range 11 13 resp) = "0500"
  /\ byte_range 13 18 resp = [x41; x42; x43; x44; x45].

(** A liveness-check failure: an [errors.New] value of the health check. *)
Definition liveness_failure (e : error) : Prop :=
  exists detail : string,
    e = errors_New ("plc connect test is fail: return " +:+ detail).

(** A connection that accepts every request and answers [received]. *)
Definition answering (received : list byte) : TCPConn :=
  mkConn (fun _ => None) (fun _ => (received, None)).

Definition good_response : list byte :=
  [xd0; x00; x00; xff; xff; x03; x00; x09; x00; x00; x00] ++ echo.

(** The good response with its last byte changed from "E" to "F". *)
Definition bad_response : list byte := <[17%nat := x46]> good_response.

(** ** Requests and responses of the client *)

(** The same client on another connection. *)
Definition on_conn (c : client3E) (k : TCPConn) : client3E :=
  mkClient (tcpAddr c) (stn c) k.

(** The text fields of a 3E Response, in wire order. *)
Definition text_fields (r : Response) : string :=
  SubHeader r +:+ NetworkNum r +:+ PCNum r +:+ UnitIONum r +:+
  UnitStationNum r +:+ DataLen r +:+ EndCode r.

(** The bytes of a health check request after the station identity. *)
Definition health_request_tail : list byte :=
  [x0d; x00; x10; x00; x19; x06; x00; x00] ++ echo.

(** [s] decodes, without error, to [k] bytes followed by [tail]. *)
Definition decodes_before (k : nat) (s : string) (tail : list byte) : Prop :=
  exists bs : list byte, length bs = k /\ decodes s (bs ++ tail).

(** The outcome of sending [payload] and reading into a buffer of [size]
    bytes: an error of the connection is returned as it is; otherwise
    the received bytes, cut to the buffer, are returned with no error. *)
Definition exchange (c : client3E) (payload : list byte) (size : nat)
    (result : Go bytes_result) : Prop :=
  match conn_Write (conn c) payload with
  | Some e => result = Return (nil_slice, Some (net_Error e))
  | None =>
      match conn_Read (conn c) size with
      | (_, Some e) => result = Return (nil_slice, Some (net_Error e))
      | (received, None) =>
          exists resp : slice,
            result = Return (resp, None)
            /\ elems resp = take size received
            /\ cap resp = Z.of_nat size
      end
  end.

(** A connection that refuses every request. *)
Definition refusing (msg : string) : TCPConn :=
  mkConn (fun _ => Some msg) (fun _ => ([], None)).

(** A station whose network number is not hex text. *)
Definition station_bad_hex : station := mkStation "0G" "FF" "FF03" "00".

(** * Properties *)

(** ** A first example *)

Example BuildReadRequest_D_100_1 :
  BuildReadRequest NewLocalStation "D" 100 1
  = Return "500000FFFF03000C00100001040000640000A80100".
Proof. vm_compute. reflexivity. Qed.

(** ** Slices *)

Lemma len_nonneg (s : slice) : 0 <= len s.
Proof. unfold len. lia. Qed.

Lemma len_le_cap (s : slice) : len s <= cap s.
Proof. unfold len, cap. rewrite length_app. lia. Qed.

(** A slice expression whose bounds lie within the length does not
    depend on the capacity, and cannot panic. *)
Lemma slice_expr_within (s : slice) (lo hi : Z) :
  0 <= lo <= hi -> hi <= len s ->
  slice_expr s lo hi
  = Return (mkSlice (byte_range (Z.to_nat lo) (Z.to_nat hi) (elems s))
                    (drop (Z.to_nat hi) (elems s ++ spare s))).
Proof.
  intros Hlo Hhi. unfold slice_expr.
  pose proof (len_le_cap s) as Hcap.
  assert (Hc : (0 <=? lo) && (lo <=? hi) && (hi <=? cap s) = true).
  { rewrite !andb_true_iff, !Z.leb_le. lia. }
  rewrite Hc. unfold byte_range.
  rewrite take_app_le by (unfold len in Hhi; lia). reflexivity.
Qed.

Lemma slice_from_within (s : slice) (lo : Z) :
  0 <= lo <= len s ->
  slice_from s lo = Return (mkSlice (drop (Z.to_nat lo) (elems s)) (spare s)).
Proof.
  intros Hlo. unfold slice_from.
  rewrite slice_expr_within by lia.
  unfold byte_range, len. rewrite Nat2Z.id, take_ge by lia.
  rewrite drop_app_length. reflexivity.
Qed.

Lemma slice_index_within (s : slice) (i : Z) (b : byte) :
  0 <= i -> elems s !! Z.to_nat i = Some b -> slice_index s i = Return b.
Proof.
  intros Hi Hb. unfold slice_index, len.
  apply lookup_lt_Some in Hb as Hlt.
  assert (Hc : (0 <=? i) && (i <? Z.of_nat (length (elems s))) = true).
  { rewrite andb_true_iff, Z.leb_le, Z.ltb_lt. lia. }
  rewrite Hc, Hb. reflexivity.
Qed.

(** ** The 3E parser *)

Lemma parser_3E_Process_short (resp : slice) :
  len resp < 22 ->
  parser_3E_Process resp
  = Return (None, Some (errors_New "length must be larger than 22 byte")).
Proof.
  intros H. unfold parser_3E_Process.
  apply Z.ltb_lt in H. rewrite H. reflexivity.
Qed.

Lemma parser_3E_Process_long (resp : slice) :
  22 <= len resp ->
  parser_3E_Process resp = Return (Some (parsed_3E (elems resp)), None).
Proof.
  intros H. unfold parser_3E_Process.
  apply Z.ltb_ge in H as Hb. rewrite Hb.
  rewrite !slice_expr_within, slice_from_within by lia.
  reflexivity.
Qed.

(** C1.  [parser_3E.Process]: a buffer shorter than 22 bytes gives the
    length error and no Response; a buffer of at least 22 bytes gives,
    with no error and whatever its end-code bytes are, the Response whose
    fields are the hex text of the byte ranges [0:2), [2:3), [3:4),
    [4:6), [6:7), [7:9), [9:11) and whose Payload is [resp[11:]]. *)
Theorem parser_3E_Process_spec (resp : slice) :
  (len resp < 22 ->
     parser_3E_Process resp
     = Return (None, Some (errors_New "length must be larger than 22 byte")))
  /\ (22 <= len resp ->
     parser_3E_Process resp
     = Return (Some {| SubHeader := hex_of_bytes (byte_range 0 2 (elems resp));
                       NetworkNum := hex_of_bytes (byte_range 2 3 (elems resp));
                       PCNum := hex_of_bytes (byte_range 3 4 (elems resp));
                       UnitIONum := hex_of_bytes (byte_range 4 6 (elems resp));
                       UnitStationNum := hex_of_bytes (byte_range 6 7 (elems resp));
                       DataLen := hex_of_bytes (byte_range 7 9 (elems resp));
                       EndCode := hex_of_bytes (byte_range 9 11 (elems resp));
                       Payload := drop 11 (elems resp);
                       ErrInfo := [] |}, None)).
Proof.
  split.
  - apply parser_3E_Process_short.
  - apply parser_3E_Process_long.
Qed.

Lemma parser_3E_Process_spec_witness :
  parser_3E_Process buffer_21
  = Return (None, Some (errors_New "length must be larger than 22 byte"))
  /\ parser_3E_Process buffer_22_C051
     = Return (Some {| SubHeader := "D000"; NetworkNum := "00"; PCNum := "FF";
                       UnitIONum := "FF03"; UnitStationNum := "00";
                       DataLen := "0D00"; EndCode := "C051";
                       Payload := [x01; x02; x03; x04; x05; x06; x07; x08; x09; x0a; x0b];
                       ErrInfo := [] |}, None).
Proof.
  split.
  - apply (proj1 (parser_3E_Process_spec buffer_21)). vm_compute. reflexivity.
  - apply (proj2 (parser_3E_Process_spec buffer_22_C051)). vm_compute. discriminate.
Defined.

(** C5, as stated, fails: the Payload of a 22-byte buffer with a zero end
    code is not empty. *)
Lemma parser_3E_Process_22_payload_not_empty :
  exists r : Response,
    parser_3E_Process buffer_22_ok = Return (Some r, None)
    /\ EndCode r = "0000"
    /\ Payload r = [x01; x02; x03; x04; x05; x06; x07; x08; x09; x0a; x0b]
    /\ Payload r <> [].
Proof.
  eexists. split; [vm_compute; reflexivity|].
  repeat split. discriminate.
Qed.

(** C5, amended.  [parser_3E.Process] on a buffer of exactly 22 bytes
    whose end-code bytes are zero returns, with no error, a Response
    whose EndCode is "0000" and whose Payload is the 11 bytes
    [resp[11:22]]; on a 21-byte buffer it returns the length error. *)
Theorem parser_3E_Process_22_and_21 (resp : slice) :
  (len resp = 22 -> byte_range 9 11 (elems resp) = [x00; x00] ->
     exists r : Response,
       parser_3E_Process resp = Return (Some r, None)
       /\ EndCode r = "0000"
       /\ Payload r = byte_range 11 22 (elems resp)
       /\ length (Payload r) = 11%nat)
  /\ (len resp = 21 ->
     parser_3E_Process resp
     = Return (None, Some (errors_New "length must be larger than 22 byte"))).
Proof.
  split.
  - intros Hlen Hend. exists (parsed_3E (elems resp)).
    split; [apply parser_3E_Process_long; lia|].
    unfold len in Hlen. cbn [parsed_3E EndCode Payload].
    rewrite Hend. split; [reflexivity|].
    unfold byte_range. rewrite take_ge by lia.
    split; [reflexivity|]. rewrite length_drop. lia.
  - intros Hlen. apply parser_3E_Process_short. lia.
Qed.

Lemma parser_3E_Process_22_and_21_witness :
  (exists r : Response,
     parser_3E_Process buffer_22_ok = Return (Some r, None)
     /\ EndCode r = "0000"
     /\ Payload r = byte_range 11 22 (elems buffer_22_ok)
     /\ length (Payload r) = 11%nat)
  /\ parser_3E_Process buffer_21
     = Return (None, Some (errors_New "length must be larger than 22 byte")).
Proof.
  split.
  - apply (proj1 (parser_3E_Process_22_and_21 buffer_22_ok)); reflexivity.
  - apply (proj2 (parser_3E_Process_22_and_21 buffer_21)); reflexivity.
Defined.

(** ** The 1E parser *)

Lemma parser_1E_Process_short (resp : slice) :
  len resp < 2 ->
  parser_1E_Process resp
  = Return (None, Some (errors_New "length must be larger than 2 bytes")).
Proof.
  intros H. unfold parser_1E_Process.
  apply Z.ltb_lt in H. rewrite H. reflexivity.
Qed.

(** Exactly two bytes: the PLC error, carrying the hex of both bytes. *)
Lemma parser_1E_Process_error_code (resp : slice) :
  len resp = 2 ->
  parser_1E_Process resp
  = Return (None, Some (fmt_Errorf
      ("PLC returned an error code: " +:+ hex_of_bytes (elems resp)))).
Proof.
  intros H. unfold parser_1E_Process.
  rewrite H. cbn [Z.ltb Z.eqb Z.compare Pos.compare Pos.compare_cont].
  rewrite slice_expr_within by lia.
  unfold byte_range. unfold len in H.
  rewrite take_ge by lia. reflexivity.
Qed.

(** Three bytes or more: both text fields are [%X] of a single byte. *)
Lemma parser_1E_Process_long (resp : slice) (b0 b1 b2 : byte) (rest : list byte) :
  elems resp = b0 :: b1 :: b2 :: rest ->
  parser_1E_Process resp
  = Return (Some {| SubHeader := Sprintf_X_uint8 b0;
                    NetworkNum := ""; PCNum := ""; UnitIONum := "";
                    UnitStationNum := ""; DataLen := "";
                    EndCode := Sprintf_X_uint8 b1;
                    Payload := b2 :: rest;
                    ErrInfo := [] |}, None).
Proof.
  intros He. unfold parser_1E_Process.
  assert (Hlen : 3 <= len resp).
  { unfold len. rewrite He. cbn [length]. lia. }
  destruct (len resp <? 2) eqn:H2; [apply Z.ltb_lt in H2; lia|].
  destruct (len resp =? 2) eqn:H3; [apply Z.eqb_eq in H3; lia|].
  rewrite (slice_index_within resp 0 b0) by (rewrite ?He; first [lia | reflexivity]).
  rewrite (slice_index_within resp 1 b1) by (rewrite ?He; first [lia | reflexivity]).
  rewrite slice_from_within by lia.
  rewrite He. reflexivity.
Qed.

(** [%X] of a single byte is its two-digit hex text only from 0x10 on;
    below, the leading zero is missing. *)
Lemma Sprintf_X_uint8_two_digits (b : byte) :
  16 <= Z_of_byte b -> Sprintf_X_uint8 b = hex_of_bytes [b].
Proof.
  intros H. unfold Sprintf_X_uint8.
  destruct (Z_of_byte b <? 16) eqn:E; [apply Z.ltb_lt in E; lia|reflexivity].
Qed.

Lemma Sprintf_X_uint8_one_digit (b : byte) :
  Z_of_byte b < 16 -> String.length (Sprintf_X_uint8 b) = 1%nat.
Proof.
  intros H. unfold Sprintf_X_uint8.
  apply Z.ltb_lt in H. rewrite H. reflexivity.
Qed.

(** C6.  [parser_1E.Process] at the buffers of the claim: the 2-byte
    buffer [{0x12, 0x34}] gives the PLC error carrying "1234"; the
    3-byte buffer [{0x5A, 0x00, 0xFF}] gives SubHeader "5A" and Payload
    [{0xFF}], but EndCode "0", not "00". *)
Theorem parser_1E_Process_examples :
  parser_1E_Process (slice_of [x12; x34])
  = Return (None, Some (fmt_Errorf "PLC returned an error code: 1234"))
  /\ parser_1E_Process (slice_of [x5a; x00; xff])
     = Return (Some {| SubHeader := "5A";
                       NetworkNum := ""; PCNum := ""; UnitIONum := "";
                       UnitStationNum := ""; DataLen := "";
                       EndCode := "0";
                       Payload := [xff];
                       ErrInfo := [] |}, None)
  /\ "0" <> "00".
Proof.
  split; [|split].
  - vm_compute. reflexivity.
  - vm_compute. reflexivity.
  - discriminate.
Qed.

(** ** Strings and hex text *)

Lemma strlen_nonneg (s : string) : 0 <= strlen s.
Proof. unfold strlen. lia. Qed.

Lemma append_cons (c : ascii) (a b : string) :
  String c a +:+ b = String c (a +:+ b).
Proof. reflexivity. Qed.

Lemma append_empty_l (b : string) : "" +:+ b = b.
Proof. reflexivity. Qed.

Ltac string_induction a :=
  induction a as [|? a ?IH];
  rewrite ?append_cons, ?append_empty_l; simpl;
  rewrite ?append_cons, ?append_empty_l.

Lemma length_append (a b : string) :
  String.length (a +:+ b) = (String.length a + String.length b)%nat.
Proof. string_induction a; [reflexivity|]. rewrite IH. reflexivity. Qed.

Lemma strlen_append (a b : string) : strlen (a +:+ b) = strlen a + strlen b.
Proof. unfold strlen. rewrite length_append. lia. Qed.

Lemma append_assoc (a b c : string) : (a +:+ b) +:+ c = a +:+ (b +:+ c).
Proof. string_induction a; [reflexivity|]. rewrite IH. reflexivity. Qed.

Lemma append_empty_r (a : string) : a +:+ "" = a.
Proof. string_induction a; [reflexivity|]. rewrite IH. reflexivity. Qed.

Lemma substring_0_all (s : string) : substring 0 (String.length s) s = s.
Proof. induction s as [|c s IH]; simpl; [reflexivity|]. rewrite IH. reflexivity. Qed.

Lemma substring_0_append (a b : string) :
  substring 0 (String.length a) (a +:+ b) = a.
Proof. string_induction a; [destruct b; reflexivity|]. rewrite IH. reflexivity. Qed.

Lemma substring_skip (a b : string) (n m : nat) :
  substring (String.length a + n) m (a +:+ b) = substring n m b.
Proof. string_induction a; [reflexivity|]. apply IH. Qed.

(** The middle part of a concatenation, by position. *)
Lemma substring_middle (a b c : string) :
  substring (String.length a) (String.length b) (a +:+ b +:+ c) = b.
Proof.
  rewrite <- (Nat.add_0_r (String.length a)), substring_skip.
  apply substring_0_append.
Qed.

(** The last part of a concatenation, by position. *)
Lemma substring_tail (a b : string) :
  substring (String.length a) (String.length (a +:+ b) - String.length a) (a +:+ b) = b.
Proof.
  rewrite length_append.
  replace (String.length a + String.length b - String.length a)%nat
    with (String.length b) by lia.
  rewrite <- (Nat.add_0_r (String.length a)) at 1.
  rewrite substring_skip. apply substring_0_all.
Qed.

Lemma hex_of_bytes_app (xs ys : list byte) :
  hex_of_bytes (xs ++ ys) = hex_of_bytes xs +:+ hex_of_bytes ys.
Proof.
  induction xs as [|x xs IH]; simpl; [reflexivity|].
  rewrite IH, !append_cons. reflexivity.
Qed.

Lemma length_hex_of_bytes (bs : list byte) :
  String.length (hex_of_bytes bs) = (2 * length bs)%nat.
Proof. induction bs as [|b bs IH]; simpl; [reflexivity|]. rewrite IH. lia. Qed.

Lemma strlen_hex_of_bytes (bs : list byte) :
  strlen (hex_of_bytes bs) = 2 * Z.of_nat (length bs).
Proof. unfold strlen. rewrite length_hex_of_bytes. lia. Qed.

Lemma decodes_hex_digits (b : byte) :
  exists hi lo : Z,
    fromHexChar (digit (Z.shiftr (Z_of_byte b) 4)) = Some hi
    /\ fromHexChar (digit (Z.land (Z_of_byte b) 15)) = Some lo
    /\ byte_of_Z (Z.lor (Z.shiftl hi 4) lo) = b.
Proof. destruct b; do 2 eexists; repeat split. Qed.

(** Round trip: decoding the [%X] text of a byte slice gives it back. *)
Lemma decodes_hex_of_bytes (bs : list byte) : decodes (hex_of_bytes bs) bs.
Proof.
  unfold decodes. induction bs as [|b bs IH]; [reflexivity|].
  destruct (decodes_hex_digits b) as (hi & lo & Hhi & Hlo & Hb).
  cbn [hex_of_bytes hex_DecodeString]. rewrite Hhi, Hlo, IH, Hb. reflexivity.
Qed.

Lemma hex_of_bytes_inj (xs ys : list byte) :
  hex_of_bytes xs = hex_of_bytes ys -> xs = ys.
Proof.
  intros H. pose proof (decodes_hex_of_bytes xs) as Hx.
  pose proof (decodes_hex_of_bytes ys) as Hy.
  unfold decodes in *. rewrite H in Hx. congruence.
Qed.

Lemma decodes_cons (p q : ascii) (s : string) (a b : Z) (bs : list byte) :
  fromHexChar p = Some a -> fromHexChar q = Some b -> decodes s bs ->
  decodes (String p (String q s)) (byte_of_Z (Z.lor (Z.shiftl a 4) b) :: bs).
Proof.
  unfold decodes. intros Hp Hq Hs.
  cbn [hex_DecodeString]. rewrite Hp, Hq, Hs. reflexivity.
Qed.

Lemma decodes_inv (s : string) (bs : list byte) :
  decodes s bs ->
  (s = "" /\ bs = [])
  \/ exists p q s' a b bs',
       s = String p (String q s') /\ fromHexChar p = Some a
       /\ fromHexChar q = Some b /\ decodes s' bs'
       /\ bs = byte_of_Z (Z.lor (Z.shiftl a 4) b) :: bs'.
Proof.
  unfold decodes. destruct s as [|p [|q s']]; cbn [hex_DecodeString].
  - intros [= <-]. left. split; reflexivity.
  - destruct (fromHexChar p); discriminate.
  - destruct (fromHexChar p) as [a|] eqn:Hp; [|discriminate].
    destruct (fromHexChar q) as [b|] eqn:Hq; [|discriminate].
    destruct (hex_DecodeString s') as [bs' err] eqn:Hs.
    intros [= <- ->]. right. exists p, q, s', a, b, bs'. repeat split; assumption.
Qed.

(** Hex texts concatenate to the hex text of the concatenated bytes. *)
Lemma decodes_append (s t : string) (xs ys : list byte) :
  decodes s xs -> decodes t ys -> decodes (s +:+ t) (xs ++ ys).
Proof.
  revert s. induction xs as [|x xs IH]; intros s Hs Ht.
  - destruct (decodes_inv _ _ Hs) as [[-> _]|(p & q & s' & a & b & bs' & _ & _ & _ & _ & [=])].
    exact Ht.
  - destruct (decodes_inv _ _ Hs) as [[_ [=]]|(p & q & s' & a & b & bs' & -> & Hp & Hq & Hs' & [= -> ->])].
    rewrite !append_cons. cbn [app]. apply decodes_cons; auto.
Qed.

Lemma decodes_length (s : string) (bs : list byte) :
  decodes s bs -> String.length s = (2 * length bs)%nat.
Proof.
  revert s. induction bs as [|x xs IH]; intros s Hs.
  - destruct (decodes_inv _ _ Hs) as [[-> _]|(p & q & s' & a & b & bs' & _ & _ & _ & _ & [=])].
    reflexivity.
  - destruct (decodes_inv _ _ Hs) as [[_ [=]]|(p & q & s' & a & b & bs' & -> & Hp & Hq & Hs' & [= -> ->])].
    cbn [String.length length]. rewrite (IH _ Hs'). lia.
Qed.

Lemma hex_text_2_decodes (s : string) :
  hex_text 2 s -> exists b : byte, decodes s [b].
Proof.
  intros [Hlen Hhex].
  destruct s as [|p [|q [|]]]; try discriminate.
  cbn [all_hex] in Hhex. unfold is_hex_char in Hhex.
  destruct (fromHexChar p) as [a|] eqn:Hp; [|discriminate].
  destruct (fromHexChar q) as [b|] eqn:Hq; [|discriminate].
  eexists. apply decodes_cons; eauto. reflexivity.
Qed.

Lemma hex_text_4_decodes (s : string) :
  hex_text 4 s -> exists b0 b1 : byte, decodes s [b0; b1].
Proof.
  intros [Hlen Hhex].
  destruct s as [|p [|q [|p' [|q' [|]]]]]; try discriminate.
  cbn [all_hex] in Hhex. unfold is_hex_char in Hhex.
  destruct (fromHexChar p) as [a|] eqn:Hp; [|discriminate].
  destruct (fromHexChar q) as [b|] eqn:Hq; [|discriminate].
  destruct (fromHexChar p') as [a'|] eqn:Hp'; [|discriminate].
  destruct (fromHexChar q') as [b'|] eqn:Hq'; [|discriminate].
  do 2 eexists. apply decodes_cons; eauto. apply decodes_cons; eauto. reflexivity.
Qed.

(** ** Bytes and little-endian serialization *)

Lemma Z_of_byte_of_Z (z : Z) : Z_of_byte (byte_of_Z z) = z mod 256.
Proof.
  unfold Z_of_byte, byte_of_Z.
  pose proof (Z.mod_pos_bound z 256 ltac:(lia)) as Hb.
  destruct (Byte.of_N (Z.to_N (z mod 256))) as [b|] eqn:E.
  - apply Byte.to_of_N in E. rewrite E. lia.
  - apply Byte.of_N_None_iff in E. lia.
Qed.

Lemma Z_of_byte_range (b : byte) : 0 <= Z_of_byte b < 256.
Proof.
  unfold Z_of_byte. pose proof (Byte.to_N_bounded b). lia.
Qed.

Lemma byte_of_Z_mod (a b : Z) : a mod 256 = b mod 256 -> byte_of_Z a = byte_of_Z b.
Proof. intros H. unfold byte_of_Z. rewrite H. reflexivity. Qed.

Lemma length_low_bytes (k : nat) (v : Z) : length (low_bytes k v) = k.
Proof. revert v. induction k as [|k IH]; intros v; simpl; [reflexivity|]. rewrite IH. reflexivity. Qed.

(** The low [k] bytes carry [v] modulo [256^k]: for a negative [v] its
    two's complement. *)
Lemma le_value_low_bytes (k : nat) (v : Z) :
  le_value (low_bytes k v) = v mod 256 ^ Z.of_nat k.
Proof.
  revert v. induction k as [|k IH]; intros v.
  - simpl. rewrite Z.mod_1_r. reflexivity.
  - cbn [low_bytes le_value]. rewrite IH, Z_of_byte_of_Z.
    rewrite Nat2Z.inj_succ, Z.pow_succ_r by lia.
    rewrite Z.rem_mul_r by lia. reflexivity.
Qed.

Lemma take_low_bytes (j k : nat) (v : Z) :
  (j <= k)%nat -> take j (low_bytes k v) = low_bytes j v.
Proof.
  revert k v. induction j as [|j IH]; intros k v Hjk; [reflexivity|].
  destruct k as [|k]; [lia|]. cbn [low_bytes take]. rewrite IH by lia. reflexivity.
Qed.

Lemma shiftr_uint64_byte (v k : Z) :
  0 <= k -> k + 8 <= 64 ->
  Z.shiftr (uint64 v) k mod 256 = (v / 2 ^ k) mod 256.
Proof.
  intros Hk Hk8. unfold uint64.
  rewrite Z.shiftr_div_pow2 by lia.
  change 256 with (2 ^ 8).
  apply Z.bits_inj'. intros n Hn.
  destruct (Z_lt_dec n 8) as [Hlt|Hge].
  - rewrite !Z.mod_pow2_bits_low by lia.
    rewrite !Z.div_pow2_bits by lia.
    rewrite Z.mod_pow2_bits_low by lia. reflexivity.
  - rewrite !Z.mod_pow2_bits_high by lia. reflexivity.
Qed.

(** [binary.Write] of an [int64] produces the low 8 bytes of the value. *)
Lemma PutUint64_low_bytes (v : Z) : PutUint64 (uint64 v) = low_bytes 8 v.
Proof.
  unfold PutUint64. cbn [map low_bytes].
  rewrite !Z.div_div by lia.
  assert (H : forall i, 0 <= i < 8 ->
            byte_of_Z (Z.shiftr (uint64 v) (8 * i)) = byte_of_Z (v / 2 ^ (8 * i))).
  { intros i Hi. apply byte_of_Z_mod. apply shiftr_uint64_byte; lia. }
  rewrite (H 0), (H 1), (H 2), (H 3), (H 4), (H 5), (H 6), (H 7) by lia.
  change (2 ^ (8 * 0)) with 1. rewrite Z.div_1_r. reflexivity.
Qed.

(** ** Buffers *)

Lemma Buffer_Write_new_small (p : list byte) :
  (0 < length p <= 64)%nat ->
  Buffer_Write new_Buffer p = mkSlice p (replicate (64 - length p) x00).
Proof.
  intros [Hpos Hle]. unfold Buffer_Write, new_Buffer, nil_slice, smallBufferSize.
  cbn [elems spare app length].
  destruct (length p <=? 0)%nat eqn:E0; [apply Nat.leb_le in E0; lia|].
  apply Nat.leb_le in Hle. rewrite Hle. reflexivity.
Qed.

Lemma Buffer_Write_new_empty : Buffer_Write new_Buffer [] = nil_slice.
Proof. reflexivity. Qed.

Lemma Buffer_Write_new_large (p : list byte) :
  (64 < length p)%nat ->
  Buffer_Write new_Buffer p
  = mkSlice p (replicate (Z.to_nat (roundupsize (Z.of_nat (length p))) - length p) x00).
Proof.
  intros Hlt. unfold Buffer_Write, new_Buffer, nil_slice, smallBufferSize.
  cbn [elems spare app length].
  destruct (length p <=? 0)%nat eqn:E0; [apply Nat.leb_le in E0; lia|].
  destruct (length p <=? 64)%nat eqn:E1; [apply Nat.leb_le in E1; lia|].
  cbn [andb Nat.eqb Nat.mul Nat.add]. rewrite Nat.max_0_r. reflexivity.
Qed.

(** The first [k] bytes of a freshly serialized [int64]: in bounds for
    every [k] up to 8, and equal to the low [k] bytes of the value. *)
Lemma slice_int64 (v k : Z) :
  0 <= k <= 8 ->
  exists rest : list byte,
    slice_expr (Buffer_Bytes (binary_Write_int64 new_Buffer v)) 0 k
    = Return (mkSlice (low_bytes (Z.to_nat k) v) rest).
Proof.
  intros Hk. unfold Buffer_Bytes, binary_Write_int64.
  rewrite PutUint64_low_bytes, Buffer_Write_new_small
    by (rewrite length_low_bytes; lia).
  rewrite slice_expr_within
    by (unfold len; cbn [elems]; rewrite ?length_low_bytes; lia).
  eexists. cbn [elems]. unfold byte_range.
  rewrite drop_0, take_low_bytes by lia. reflexivity.
Qed.

(** ** The request builders in closed form *)

Lemma Go_bind_Return {A B : Type} (a : A) (f : A -> Go B) :
  (Return a ≫= f) = f a.
Proof. reflexivity. Qed.

Lemma Return_inj {A : Type} (a b : A) : Return a = Return b -> a = b.
Proof. intros [= H]. exact H. Qed.

Lemma strlen_quot_2 (s : string) : Z.quot (strlen s) 2 = strlen s / 2.
Proof. apply Z.quot_div_nonneg; [apply strlen_nonneg|lia]. Qed.

Lemma header_append (h : station) (rest : string) :
  header h +:+ rest
  = SUB_HEADER +:+ networkNum h +:+ pcNum h +:+ unitIONum h +:+
    unitStationNum h +:+ rest.
Proof. unfold header. rewrite !append_assoc. reflexivity. Qed.

Lemma strlen_read_body (subCommand deviceName : string) (offset numPoints : Z) :
  strlen (read_body subCommand deviceName offset numPoints)
  = 18 + strlen subCommand + strlen (DeviceCodes_at deviceName).
Proof.
  unfold read_body. rewrite !strlen_append, !strlen_hex_of_bytes, !length_low_bytes.
  change (strlen MONITORING_TIMER) with 4. change (strlen READ_COMMAND) with 4. lia.
Qed.

Lemma strlen_write_body (subCommand deviceName : string) (offset numPoints : Z)
    (payload : list byte) :
  strlen (write_body subCommand deviceName offset numPoints payload)
  = 18 + strlen subCommand + strlen (DeviceCodes_at deviceName)
    + 2 * Z.of_nat (length payload).
Proof.
  unfold write_body. rewrite !strlen_append, !strlen_hex_of_bytes, !length_low_bytes.
  change (strlen MONITORING_TIMER) with 4. change (strlen WRITE_COMMAND) with 4. lia.
Qed.

Lemma BuildHealthCheckRequest_eq (h : station) :
  BuildHealthCheckRequest h = Return (frame_of h health_body).
Proof.
  unfold BuildHealthCheckRequest. cbv zeta.
  destruct (slice_int64
    (Z.quot (strlen (MONITORING_TIMER +:+ HEALTH_CHECK_COMMAND +:+
       HEALTH_CHECK_SUBCOMMAND +:+ "0500" +:+ "4142434445")) 2) 2 ltac:(lia))
    as [rest ->].
  rewrite Go_bind_Return. unfold frame_of, Sprintf_X. cbn [elems].
  rewrite header_append. reflexivity.
Qed.

(** The read builder never panics; its data length counts the body it
    emits whenever the sub-command has four characters. *)
Lemma buildReadRequestHelper_eq (h : station) (deviceName : string)
    (offset numPoints : Z) (subCommand : string) :
  strlen subCommand = 4 ->
  buildReadRequestHelper h deviceName offset numPoints subCommand
  = Return (frame_of h (read_body subCommand deviceName offset numPoints)).
Proof.
  intros Hsub. unfold buildReadRequestHelper. cbv zeta.
  destruct (slice_int64 offset 3 ltac:(lia)) as [r1 ->]. rewrite Go_bind_Return.
  destruct (slice_int64 numPoints 2 ltac:(lia)) as [r2 ->]. rewrite Go_bind_Return.
  unfold Sprintf_X. cbn [elems].
  change (Z.to_nat 3) with 3%nat. change (Z.to_nat 2) with 2%nat.
  rewrite strlen_quot_2.
  match goal with |- context [binary_Write_int64 new_Buffer ?v] =>
    destruct (slice_int64 v 2 ltac:(lia)) as [r3 ->];
    replace v with (strlen (read_body subCommand deviceName offset numPoints) / 2)
  end.
  - rewrite Go_bind_Return. unfold frame_of, Sprintf_X. cbn [elems].
    rewrite header_append. reflexivity.
  - f_equal. rewrite strlen_read_body, Hsub.
    rewrite !strlen_append, !strlen_hex_of_bytes, !length_low_bytes.
    change (strlen MONITORING_TIMER) with 4. change (strlen READ_COMMAND) with 4.
    change (strlen READ_SUB_COMMAND) with 4. lia.
Qed.

Lemma BuildReadRequest_eq (h : station) (deviceName : string) (offset numPoints : Z) :
  BuildReadRequest h deviceName offset numPoints
  = Return (frame_of h (read_body READ_SUB_COMMAND deviceName offset numPoints)).
Proof. apply buildReadRequestHelper_eq. reflexivity. Qed.

Lemma BuildBitReadRequest_eq (h : station) (deviceName : string) (offset numPoints : Z) :
  BuildBitReadRequest h deviceName offset numPoints
  = Return (frame_of h (read_body BIT_READ_SUB_COMMAND deviceName offset numPoints)).
Proof. apply buildReadRequestHelper_eq. reflexivity. Qed.

(** The write builder is its payload slice followed by the frame around
    the sliced bytes: the payload slice is its only source of a panic. *)
Lemma buildWriteRequestHelper_eq (h : station) (deviceName : string)
    (offset numPoints : Z) (writeData : slice) (subCommand : string) :
  strlen subCommand = 4 ->
  buildWriteRequestHelper h deviceName offset numPoints writeData subCommand
  = (writeB ← slice_expr (writeBuff_Bytes writeData) 0 (wrap64 (2 * numPoints));
     Return (frame_of h (write_body subCommand deviceName offset numPoints (elems writeB)))).
Proof.
  intros Hsub. unfold buildWriteRequestHelper, writeBuff_Bytes. cbv zeta.
  destruct (slice_int64 offset 3 ltac:(lia)) as [r1 ->]. rewrite Go_bind_Return.
  destruct (slice_expr _ 0 (wrap64 (2 * numPoints))) as [writeB|msg]; [|reflexivity].
  rewrite !Go_bind_Return.
  destruct (slice_int64 numPoints 2 ltac:(lia)) as [r2 ->]. rewrite Go_bind_Return.
  unfold Sprintf_X. cbn [elems].
  change (Z.to_nat 3) with 3%nat. change (Z.to_nat 2) with 2%nat.
  rewrite strlen_quot_2.
  match goal with |- context [binary_Write_int64 new_Buffer ?v] =>
    destruct (slice_int64 v 2 ltac:(lia)) as [r3 ->];
    replace v with
      (strlen (write_body subCommand deviceName offset numPoints (elems writeB)) / 2)
  end.
  - rewrite Go_bind_Return. unfold frame_of, Sprintf_X. cbn [elems].
    rewrite header_append. reflexivity.
  - f_equal. rewrite strlen_write_body, Hsub.
    rewrite !strlen_append, !strlen_hex_of_bytes, !length_low_bytes.
    change (strlen MONITORING_TIMER) with 4. change (strlen WRITE_COMMAND) with 4.
    change (strlen WRITE_SUB_COMMAND) with 4. lia.
Qed.

(** ** The device code table *)

Lemma DeviceCodes_lookup_Some (deviceName code : string) :
  DeviceCodes !! deviceName = Some code ->
  (deviceName, code) ∈ DeviceCodes_list.
Proof. apply elem_of_list_to_map_2. Qed.

(** Every registered code is the hex text of one byte. *)
Lemma DeviceCodes_registered (deviceName code : string) :
  DeviceCodes !! deviceName = Some code ->
  DeviceCodes_at deviceName = code
  /\ String.length code = 2%nat
  /\ exists b : byte, decodes code [b].
Proof.
  intros H. split; [unfold DeviceCodes_at; rewrite H; reflexivity|].
  apply DeviceCodes_lookup_Some in H. unfold DeviceCodes_list in H.
  repeat (apply elem_of_cons in H as [[= -> ->]|H];
          [split; [reflexivity|eexists; reflexivity]|]).
  apply elem_of_nil in H. contradiction.
Qed.

Lemma DeviceCodes_unregistered (deviceName : string) :
  DeviceCodes !! deviceName = None -> DeviceCodes_at deviceName = "".
Proof. intros H. unfold DeviceCodes_at. rewrite H. reflexivity. Qed.

Lemma strlen_DeviceCodes_at (deviceName : string) :
  strlen (DeviceCodes_at deviceName) = 2 \/ strlen (DeviceCodes_at deviceName) = 0.
Proof.
  destruct (DeviceCodes !! deviceName) as [code|] eqn:E.
  - destruct (DeviceCodes_registered _ _ E) as (-> & Hlen & _).
    left. unfold strlen. rewrite Hlen. reflexivity.
  - rewrite (DeviceCodes_unregistered _ E). right. reflexivity.
Qed.

(** ** C2: the data length field *)

Lemma frame_dataLength_frame_of (h : station) (body : string) :
  frame_dataLength h (frame_of h body)
  = hex_of_bytes (low_bytes 2 (strlen body / 2)).
Proof.
  unfold frame_dataLength, frame_of.
  pose proof (substring_middle (header h)
                (hex_of_bytes (low_bytes 2 (strlen body / 2))) body) as H.
  rewrite length_hex_of_bytes, length_low_bytes in H. exact H.
Qed.

Lemma frame_body_frame_of (h : station) (body : string) :
  frame_body h (frame_of h body) = body.
Proof.
  unfold frame_body, frame_of.
  rewrite <- append_assoc.
  assert (Hl : String.length (header h +:+ hex_of_bytes (low_bytes 2 (strlen body / 2)))
               = (String.length (header h) + 4)%nat).
  { rewrite length_append, length_hex_of_bytes, length_low_bytes. reflexivity. }
  rewrite <- Hl. apply substring_tail.
Qed.

Lemma write_frame_inv (h : station) (deviceName : string) (offset numPoints : Z)
    (writeData : slice) (subCommand frame : string) :
  strlen subCommand = 4 ->
  buildWriteRequestHelper h deviceName offset numPoints writeData subCommand
  = Return frame ->
  exists writeB : slice,
    slice_expr (writeBuff_Bytes writeData) 0 (wrap64 (2 * numPoints)) = Return writeB
    /\ frame = frame_of h (write_body subCommand deviceName offset numPoints (elems writeB)).
Proof.
  intros Hsub. rewrite buildWriteRequestHelper_eq by exact Hsub.
  destruct (slice_expr _ 0 _) as [writeB|msg]; [|discriminate].
  rewrite Go_bind_Return. intros [= <-]. exists writeB. split; reflexivity.
Qed.

(** Every built frame is header, data length and a body of a whole
    number of bytes. *)
Lemma built_by_frame_of (h : station) (frame : string) :
  built_by h frame ->
  exists body : string,
    frame = frame_of h body /\ strlen body = 2 * (strlen body / 2).
Proof.
  assert (Heven : forall x, (x = 2 \/ x = 0) -> forall k,
            22 + x + 2 * k = 2 * ((22 + x + 2 * k) / 2)).
  { intros x [-> | ->] k.
    - replace (22 + 2 + 2 * k) with ((12 + k) * 2) by lia. rewrite Z.div_mul; lia.
    - replace (22 + 0 + 2 * k) with ((11 + k) * 2) by lia. rewrite Z.div_mul; lia. }
  intros [H|d o n H|d o n H|d o n wd H|d o n wd H].
  - rewrite BuildHealthCheckRequest_eq in H. injection H as <-.
    exists health_body. split; reflexivity.
  - rewrite BuildReadRequest_eq in H. injection H as <-.
    eexists. split; [reflexivity|]. rewrite strlen_read_body.
    change (18 + strlen READ_SUB_COMMAND) with 22.
    specialize (Heven _ (strlen_DeviceCodes_at d) 0). rewrite Z.add_0_r in Heven.
    exact Heven.
  - rewrite BuildBitReadRequest_eq in H. injection H as <-.
    eexists. split; [reflexivity|]. rewrite strlen_read_body.
    change (18 + strlen BIT_READ_SUB_COMMAND) with 22.
    specialize (Heven _ (strlen_DeviceCodes_at d) 0). rewrite Z.add_0_r in Heven.
    exact Heven.
  - apply write_frame_inv in H as (writeB & _ & ->); [|reflexivity].
    eexists. split; [reflexivity|]. rewrite strlen_write_body.
    change (18 + strlen WRITE_SUB_COMMAND) with 22.
    apply Heven, strlen_DeviceCodes_at.
  - apply write_frame_inv in H as (writeB & _ & ->); [|reflexivity].
    eexists. split; [reflexivity|]. rewrite strlen_write_body.
    change (18 + strlen BIT_WRITE_SUB_COMMAND) with 22.
    apply Heven, strlen_DeviceCodes_at.
Qed.

(** C2, amended.  In every frame built by [BuildHealthCheckRequest],
    [BuildReadRequest], [BuildBitReadRequest], [BuildWriteRequest] or
    [BuildBitWriteRequest], the body from the monitoring timer to the end
    has an even number [2*n] of hex characters, and the data length field
    is the hex text of the low two bytes of the little-endian
    serialization of [n]: read back as a little-endian value it is
    [n mod 65536], which is [n] itself as long as the body is shorter
    than 65536 bytes.  [n] is 13 for a health check, 11 plus the bytes of
    the device code for a read, and for a write that plus the number of
    payload bytes, so it is recomputed for each request. *)
Theorem dataLength_field_spec (h : station) (frame : string) :
  built_by h frame ->
  let n := strlen (frame_body h frame) / 2 in
  (strlen (frame_body h frame) = 2 * n
   /\ frame_dataLength h frame = hex_of_bytes (low_bytes 2 n)
   /\ decodes (frame_dataLength h frame) (low_bytes 2 n)
   /\ le_value (low_bytes 2 n) = n mod 65536
   /\ (n < 65536 -> le_value (low_bytes 2 n) = n))
  /\ (BuildHealthCheckRequest h = Return frame -> n = 13)
  /\ (forall deviceName offset numPoints,
        BuildReadRequest h deviceName offset numPoints = Return frame
        \/ BuildBitReadRequest h deviceName offset numPoints = Return frame ->
        n = 11 + strlen (DeviceCodes_at deviceName) / 2)
  /\ (forall deviceName offset numPoints writeData,
        BuildWriteRequest h deviceName offset numPoints writeData = Return frame
        \/ BuildBitWriteRequest h deviceName offset numPoints writeData = Return frame ->
        exists writeB : slice,
          slice_expr (writeBuff_Bytes writeData) 0 (wrap64 (2 * numPoints))
          = Return writeB
          /\ n = 11 + strlen (DeviceCodes_at deviceName) / 2 + len writeB).
Proof.
  intros Hb n.
  assert (Hhalf : forall x, (x = 2 \/ x = 0) -> forall k, (22 + x + 2 * k) / 2 = 11 + x / 2 + k).
  { intros x [-> | ->] k.
    - change (2 / 2) with 1.
      replace (22 + 2 + 2 * k) with ((12 + k) * 2) by lia. rewrite Z.div_mul; lia.
    - change (0 / 2) with 0.
      replace (22 + 0 + 2 * k) with ((11 + k) * 2) by lia. rewrite Z.div_mul; lia. }
  split; [|split; [|split]].
  - destruct (built_by_frame_of h frame Hb) as (body & -> & Heven).
    subst n. rewrite frame_dataLength_frame_of, frame_body_frame_of.
    split; [exact Heven|]. split; [reflexivity|].
    split; [apply decodes_hex_of_bytes|].
    rewrite le_value_low_bytes. change (256 ^ Z.of_nat 2) with 65536.
    split; [reflexivity|]. intros Hlt.
    apply Z.mod_small. split; [|exact Hlt].
    apply Z.div_pos; [apply strlen_nonneg|lia].
  - intros H. rewrite BuildHealthCheckRequest_eq in H. injection H as <-.
    subst n. rewrite frame_body_frame_of. reflexivity.
  - intros d o k [H|H].
    + rewrite BuildReadRequest_eq in H. injection H as <-.
      subst n. rewrite frame_body_frame_of, strlen_read_body.
      change (18 + strlen READ_SUB_COMMAND) with 22.
      pose proof (Hhalf _ (strlen_DeviceCodes_at d) 0) as E.
      rewrite !Z.add_0_r in E. exact E.
    + rewrite BuildBitReadRequest_eq in H. injection H as <-.
      subst n. rewrite frame_body_frame_of, strlen_read_body.
      change (18 + strlen BIT_READ_SUB_COMMAND) with 22.
      pose proof (Hhalf _ (strlen_DeviceCodes_at d) 0) as E.
      rewrite !Z.add_0_r in E. exact E.
  - intros d o k wd [H|H];
      apply write_frame_inv in H as (writeB & Hs & ->); try reflexivity;
      exists writeB; (split; [exact Hs|]);
      subst n; rewrite frame_body_frame_of, strlen_write_body.
    + change (18 + strlen WRITE_SUB_COMMAND) with 22.
      apply Hhalf, strlen_DeviceCodes_at.
    + change (18 + strlen BIT_WRITE_SUB_COMMAND) with 22.
      apply Hhalf, strlen_DeviceCodes_at.
Qed.

Lemma built_by_write_frame_D_100_2 :
  built_by NewLocalStation write_frame_D_100_2.
Proof.
  apply (built_write _ _ "D" 100 2 (slice_of [x01; x02; x03; x04; x05; x06])).
  vm_compute. reflexivity.
Defined.

Lemma dataLength_field_spec_witness :
  strlen (frame_body NewLocalStation write_frame_D_100_2) = 2 * 16
  /\ frame_dataLength NewLocalStation write_frame_D_100_2 = "1000"
  /\ decodes "1000" [x10; x00]
  /\ le_value [x10; x00] = 16.
Proof.
  pose proof (dataLength_field_spec NewLocalStation write_frame_D_100_2
                built_by_write_frame_D_100_2) as [(H1 & H2 & H3 & H4 & H5) _].
  split; [exact H1|]. split; [exact H2|]. split; [exact H3|].
  apply H5. vm_compute. reflexivity.
Defined.

(** C2, as stated, fails: for a body of 65536 bytes the data length
    field is "0000", the encoding of 0. *)
Lemma dataLength_wraps_at_65536 :
  exists frame : string,
    BuildWriteRequest NewLocalStation "D" 100 32762 writeData_65524 = Return frame
    /\ strlen (frame_body NewLocalStation frame) / 2 = 65536
    /\ frame_dataLength NewLocalStation frame = "0000"
    /\ decodes (frame_dataLength NewLocalStation frame) [x00; x00]
    /\ le_value [x00; x00] <> strlen (frame_body NewLocalStation frame) / 2.
Proof.
  assert (Hlen : length (replicate (Z.to_nat 65524) x00) = Z.to_nat 65524)
    by apply length_replicate.
  assert (Hs : exists rest : list byte,
             slice_expr (writeBuff_Bytes writeData_65524) 0 (wrap64 (2 * 32762))
             = Return (mkSlice (replicate (Z.to_nat 65524) x00) rest)).
  { unfold writeBuff_Bytes, binary_Write_bytes, Buffer_Bytes, writeData_65524, slice_of.
    cbn [elems]. rewrite Buffer_Write_new_large by (rewrite Hlen; lia).
    change (wrap64 (2 * 32762)) with 65524.
    rewrite slice_expr_within by (unfold len; cbn [elems]; rewrite ?Hlen; lia).
    cbn [elems spare]. unfold byte_range.
    rewrite drop_0, take_ge by (rewrite Hlen; lia).
    eexists. reflexivity. }
  destruct Hs as [rest Hs].
  eexists. split.
  { unfold BuildWriteRequest. rewrite buildWriteRequestHelper_eq by reflexivity.
    rewrite Hs, Go_bind_Return. reflexivity. }
  rewrite frame_dataLength_frame_of, frame_body_frame_of, strlen_write_body.
  cbn [elems]. rewrite Hlen.
  change ((18 + strlen WRITE_SUB_COMMAND + strlen (DeviceCodes_at "D")
           + 2 * Z.of_nat (Z.to_nat 65524)) / 2) with 65536.
  split; [reflexivity|]. split; [reflexivity|]. split; [reflexivity|].
  vm_compute. discriminate.
Qed.

(** ** C3: the offset and point count fields *)



(** ** C7: the decoded length of a read request *)

Lemma decodes_to_append (a b : nat) (s t : string) :
  decodes_to a s -> decodes_to b t -> decodes_to (a + b) (s +:+ t).
Proof.
  intros (xs & Hs & Hx) (ys & Ht & Hy). exists (xs ++ ys).
  split; [apply decodes_append; assumption|]. rewrite length_app. lia.
Qed.

Lemma decodes_to_hex_of_bytes (bs : list byte) :
  decodes_to (length bs) (hex_of_bytes bs).
Proof. exists bs. split; [apply decodes_hex_of_bytes|reflexivity]. Qed.

Lemma decodes_to_hex_text_2 (s : string) : hex_text 2 s -> decodes_to 1 s.
Proof. intros H. destruct (hex_text_2_decodes s H) as [b Hb]. exists [b]. split; [exact Hb|reflexivity]. Qed.

Lemma decodes_to_hex_text_4 (s : string) : hex_text 4 s -> decodes_to 2 s.
Proof.
  intros H. destruct (hex_text_4_decodes s H) as (b0 & b1 & Hb).
  exists [b0; b1]. split; [exact Hb|reflexivity].
Qed.

Lemma decodes_to_header (h : station) :
  documented_widths h -> decodes_to 7 (header h).
Proof.
  intros (Hn & Hp & Hu & Hs). unfold header.
  apply (decodes_to_append 2 5); [exists [x50; x00]; split; reflexivity|].
  apply (decodes_to_append 1 4); [apply decodes_to_hex_text_2, Hn|].
  apply (decodes_to_append 1 3); [apply decodes_to_hex_text_2, Hp|].
  apply (decodes_to_append 2 1); [apply decodes_to_hex_text_4, Hu|].
  apply decodes_to_hex_text_2, Hs.
Qed.

(** C7, amended.  For a station whose identity fields have the documented
    hex-text widths and a registered device name, [BuildReadRequest]
    returns a string that [hex.DecodeString] decodes, without error, to
    7 (header) + 2 (dataLen) + 2 (timer) + 2 (cmd) + 2 (subcmd)
    + 3 (offset) + 1 (device code) + 2 (points) = 21 bytes. *)
Theorem BuildReadRequest_decoded_length (h : station) (deviceName code : string)
    (offset numPoints : Z) :
  documented_widths h ->
  DeviceCodes !! deviceName = Some code ->
  exists (frame : string) (decoded : list byte),
    BuildReadRequest h deviceName offset numPoints = Return frame
    /\ hex_DecodeString frame = (decoded, None)
    /\ length decoded = (7 + 2 + 2 + 2 + 2 + 3 + 1 + 2)%nat
    /\ length decoded = 21%nat.
Proof.
  intros Hw Hreg.
  destruct (DeviceCodes_registered _ _ Hreg) as (Hat & _ & b & Hb).
  assert (H : decodes_to (7 + (2 + (2 + (2 + (2 + (3 + (1 + 2)))))))
                (frame_of h (read_body READ_SUB_COMMAND deviceName offset numPoints))).
  { unfold frame_of, read_body.
    apply decodes_to_append; [apply decodes_to_header, Hw|].
    apply decodes_to_append; [apply (decodes_to_hex_of_bytes (low_bytes 2 _))|].
    apply decodes_to_append; [exists [x10; x00]; split; reflexivity|].
    apply decodes_to_append; [exists [x01; x04]; split; reflexivity|].
    apply decodes_to_append; [exists [x00; x00]; split; reflexivity|].
    apply decodes_to_append; [apply (decodes_to_hex_of_bytes (low_bytes 3 _))|].
    apply decodes_to_append; [rewrite Hat; exists [b]; split; [exact Hb|reflexivity]|].
    apply (decodes_to_hex_of_bytes (low_bytes 2 _)). }
  destruct H as (decoded & Hd & Hlen).
  exists (frame_of h (read_body READ_SUB_COMMAND deviceName offset numPoints)), decoded.
  split; [apply BuildReadRequest_eq|]. split; [exact Hd|].
  split; exact Hlen.
Qed.

Lemma documented_widths_NewLocalStation : documented_widths NewLocalStation.
Proof. repeat split. Defined.

Lemma BuildReadRequest_decoded_length_witness :
  exists (frame : string) (decoded : list byte),
    BuildReadRequest NewLocalStation "D" 100 1 = Return frame
    /\ hex_DecodeString frame = (decoded, None)
    /\ length decoded = (7 + 2 + 2 + 2 + 2 + 3 + 1 + 2)%nat
    /\ length decoded = 21%nat.
Proof.
  exact (BuildReadRequest_decoded_length NewLocalStation "D" "A8" 100 1
           documented_widths_NewLocalStation eq_refl).
Defined.

(** C7, as stated, fails: the request of the local station for one point
    of D100 decodes to 21 bytes, not to 11 + 2 + 2 + 2 + 2 + 3 + 1 + 2. *)
Lemma BuildReadRequest_decoded_length_not_25 :
  exists (frame : string) (decoded : list byte),
    BuildReadRequest NewLocalStation "D" 100 1 = Return frame
    /\ hex_DecodeString frame = (decoded, None)
    /\ length decoded = 21%nat
    /\ length decoded <> (11 + 2 + 2 + 2 + 2 + 3 + 1 + 2)%nat.
Proof.
  do 2 eexists. split; [vm_compute; reflexivity|].
  split; [vm_compute; reflexivity|]. split; [reflexivity|]. cbn. lia.
Qed.

(** ** C4 and C10: the payload slice of the write builders *)

Lemma wrap64_id (z : Z) : is_int64 z -> wrap64 z = z.
Proof.
  unfold is_int64, MinInt64, MaxInt64, wrap64. intros H.
  rewrite Z.mod_small; lia.
Qed.

(** Doubling a positive [int64]: the result is the double, or negative. *)
Lemma wrap64_double (n : Z) :
  0 < n <= MaxInt64 ->
  (2 * n <= MaxInt64 /\ wrap64 (2 * n) = 2 * n) \/ wrap64 (2 * n) < 0.
Proof.
  unfold MaxInt64, wrap64. intros H.
  destruct (Z_le_gt_dec (2 * n) (2 ^ 63 - 1)) as [Hle|Hgt].
  - left. split; [exact Hle|]. rewrite Z.mod_small; lia.
  - right.
    replace (2 * n + 2 ^ 63) with (2 * n - 2 ^ 63 + 1 * 2 ^ 64) by lia.
    rewrite Z.mod_add by lia. rewrite Z.mod_small; lia.
Qed.

(** What [writeBuff.Bytes()] is after the write of [writeData] into the
    fresh buffer: nothing for an empty [writeData]; up to 64 bytes sit in
    an array of 64; more bytes sit in an array of the next size class. *)
Lemma writeBuff_Bytes_cases (writeData : slice) :
  (elems writeData = [] /\ writeBuff_Bytes writeData = nil_slice)
  \/ (0 < len writeData <= 64
      /\ writeBuff_Bytes writeData
         = mkSlice (elems writeData)
                   (replicate (64 - length (elems writeData)) x00))
  \/ (64 < len writeData
      /\ writeBuff_Bytes writeData
         = mkSlice (elems writeData)
                   (replicate (Z.to_nat (roundupsize (len writeData))
                               - length (elems writeData)) x00)).
Proof.
  unfold writeBuff_Bytes, Buffer_Bytes, binary_Write_bytes, len.
  destruct (elems writeData) as [|b bs] eqn:E.
  - left. split; reflexivity.
  - right. rewrite <- E. assert (0 < length (elems writeData))%nat
      by (rewrite E; cbn; lia).
    destruct (le_gt_dec (length (elems writeData)) 64) as [Hle|Hgt].
    + left. split; [lia|]. apply Buffer_Write_new_small. lia.
    + right. split; [lia|]. apply Buffer_Write_new_large. lia.
Qed.

Lemma elems_writeBuff_Bytes (writeData : slice) :
  elems (writeBuff_Bytes writeData) = elems writeData.
Proof.
  destruct (writeBuff_Bytes_cases writeData)
    as [[He ->]|[[_ ->]|[_ ->]]]; [rewrite He|..]; reflexivity.
Qed.

(** The payload slice within the length of [writeData]. *)
Lemma payload_slice_within (writeData : slice) (k : Z) :
  0 <= k <= len writeData ->
  exists rest : list byte,
    slice_expr (writeBuff_Bytes writeData) 0 k
    = Return (mkSlice (take (Z.to_nat k) (elems writeData)) rest).
Proof.
  intros Hk.
  rewrite slice_expr_within
    by (unfold len in *; rewrite ?elems_writeBuff_Bytes; lia).
  rewrite elems_writeBuff_Bytes. unfold byte_range. rewrite drop_0.
  eexists. reflexivity.
Qed.

(** The payload slice beyond the length of a small [writeData], within
    the 64 bytes of the buffer's first array: the missing bytes are zero. *)
Lemma payload_slice_padded (writeData : slice) (k : Z) :
  0 < len writeData -> len writeData <= k <= 64 ->
  slice_expr (writeBuff_Bytes writeData) 0 k
  = Return (mkSlice (elems writeData
                     ++ replicate (Z.to_nat k - length (elems writeData)) x00)
                    (replicate (64 - Z.to_nat k) x00)).
Proof.
  intros Hpos Hk.
  destruct (writeBuff_Bytes_cases writeData)
    as [[He _]|[[Hlen ->]|[Hlen _]]];
    [unfold len in Hpos; rewrite He in Hpos; cbn in Hpos; lia| |lia].
  unfold len in *. unfold slice_expr, cap. cbn [elems spare].
  rewrite length_app, length_replicate.
  assert (Hc : (0 <=? 0) && (0 <=? k)
               && (k <=? Z.of_nat (length (elems writeData)
                                   + (64 - length (elems writeData)))) = true).
  { rewrite !andb_true_iff, !Z.leb_le. lia. }
  rewrite Hc. change (Z.to_nat 0) with 0%nat. rewrite drop_0.
  rewrite take_app, drop_app, take_ge, drop_ge by lia.
  rewrite take_replicate, drop_replicate, Nat.min_l by lia.
  replace (64 - length (elems writeData) - (Z.to_nat k - length (elems writeData)))%nat
    with (64 - Z.to_nat k)%nat by lia.
  reflexivity.
Qed.

(** The payload slice out of range: negative, or beyond the capacity. *)
Lemma payload_slice_panics (writeData : slice) (k : Z) :
  k < 0 \/ cap (writeBuff_Bytes writeData) < k ->
  slice_expr (writeBuff_Bytes writeData) 0 k
  = Panic "runtime error: slice bounds out of range".
Proof.
  intros Hk. unfold slice_expr.
  destruct ((0 <=? 0) && (0 <=? k) && (k <=? cap (writeBuff_Bytes writeData))) eqn:E;
    [|reflexivity].
  rewrite !andb_true_iff, !Z.leb_le in E. lia.
Qed.

Lemma cap_writeBuff_Bytes_small (writeData : slice) :
  len writeData <= 64 -> cap (writeBuff_Bytes writeData) <= 64.
Proof.
  intros Hle.
  destruct (writeBuff_Bytes_cases writeData)
    as [[_ ->]|[[Hlen ->]|[Hlen _]]];
    [unfold cap, nil_slice; cbn [elems spare app length]; lia| |lia].
  unfold cap, len in *. cbn [elems spare].
  rewrite length_app, length_replicate. lia.
Qed.

Lemma cap_writeBuff_Bytes_empty (writeData : slice) :
  elems writeData = [] -> cap (writeBuff_Bytes writeData) = 0.
Proof.
  intros He.
  destruct (writeBuff_Bytes_cases writeData)
    as [[_ ->]|[[Hlen _]|[Hlen _]]]; [reflexivity|..];
    unfold len in Hlen; rewrite He in Hlen; cbn in Hlen; lia.
Qed.

(** Under the precondition the write builder returns its frame. *)
Lemma buildWriteRequestHelper_within (h : station) (deviceName : string)
    (offset numPoints : Z) (writeData : slice) (subCommand : string) :
  strlen subCommand = 4 ->
  0 <= numPoints -> 2 * numPoints <= len writeData -> len writeData <= MaxInt64 ->
  buildWriteRequestHelper h deviceName offset numPoints writeData subCommand
  = Return (frame_of h (write_body subCommand deviceName offset numPoints
              (take (Z.to_nat (2 * numPoints)) (elems writeData)))).
Proof.
  intros Hsub Hn Hlen Hmax.
  rewrite buildWriteRequestHelper_eq by exact Hsub.
  rewrite wrap64_id by (unfold is_int64, MinInt64, MaxInt64 in *; lia).
  destruct (payload_slice_within writeData (2 * numPoints) ltac:(lia)) as [rest ->].
  reflexivity.
Qed.

(** C4.  With [numPoints >= 0] and a [writeData] of at least
    [2*numPoints] bytes, [BuildWriteRequest] and [BuildBitWriteRequest]
    return the frame whose trailing hex is the hex of the first
    [2*numPoints] bytes of [writeData]; the same frame is returned for
    [writeData[0:2*numPoints]], so the bytes after these play no role. *)
Theorem BuildWriteRequest_payload_prefix (h : station) (deviceName : string)
    (offset numPoints : Z) (writeData truncated : slice) :
  0 <= numPoints ->
  2 * numPoints <= len writeData ->
  len writeData <= MaxInt64 ->
  slice_expr writeData 0 (2 * numPoints) = Return truncated ->
  let payload := take (Z.to_nat (2 * numPoints)) (elems writeData) in
  length payload = Z.to_nat (2 * numPoints)
  /\ elems truncated = payload
  /\ BuildWriteRequest h deviceName offset numPoints writeData
     = Return (frame_of h (MONITORING_TIMER +:+ WRITE_COMMAND +:+ WRITE_SUB_COMMAND +:+
                           hex_of_bytes (low_bytes 3 offset) +:+
                           DeviceCodes_at deviceName +:+
                           hex_of_bytes (low_bytes 2 numPoints) +:+
                           hex_of_bytes payload))
  /\ BuildBitWriteRequest h deviceName offset numPoints writeData
     = Return (frame_of h (MONITORING_TIMER +:+ WRITE_COMMAND +:+ BIT_WRITE_SUB_COMMAND +:+
                           hex_of_bytes (low_bytes 3 offset) +:+
                           DeviceCodes_at deviceName +:+
                           hex_of_bytes (low_bytes 2 numPoints) +:+
                           hex_of_bytes payload))
  /\ BuildWriteRequest h deviceName offset numPoints writeData
     = BuildWriteRequest h deviceName offset numPoints truncated
  /\ BuildBitWriteRequest h deviceName offset numPoints writeData
     = BuildBitWriteRequest h deviceName offset numPoints truncated.
Proof.
  intros Hn Hlen Hmax Htr payload.
  assert (Hw : wrap64 (2 * numPoints) = 2 * numPoints).
  { apply wrap64_id. unfold is_int64, MinInt64, MaxInt64 in *. lia. }
  assert (Hpl : length payload = Z.to_nat (2 * numPoints)).
  { subst payload. rewrite length_take. unfold len in Hlen. lia. }
  assert (Het : elems truncated = payload).
  { rewrite slice_expr_within in Htr by lia. injection Htr as <-.
    cbn [elems]. unfold byte_range. apply drop_0. }
  assert (Hfull : forall sub, strlen sub = 4 ->
            buildWriteRequestHelper h deviceName offset numPoints writeData sub
            = Return (frame_of h (write_body sub deviceName offset numPoints payload))).
  { intros sub Hsub. rewrite buildWriteRequestHelper_eq, Hw by exact Hsub.
    destruct (payload_slice_within writeData (2 * numPoints) ltac:(lia)) as [rest ->].
    reflexivity. }
  assert (Htrunc : forall sub, strlen sub = 4 ->
            buildWriteRequestHelper h deviceName offset numPoints truncated sub
            = Return (frame_of h (write_body sub deviceName offset numPoints payload))).
  { intros sub Hsub. rewrite buildWriteRequestHelper_eq, Hw by exact Hsub.
    destruct (payload_slice_within truncated (2 * numPoints)) as [rest ->].
    { unfold len. rewrite Het, Hpl. lia. }
    rewrite Go_bind_Return. cbn [elems].
    rewrite Het, take_ge by lia. reflexivity. }
  split; [exact Hpl|]. split; [exact Het|].
  unfold BuildWriteRequest, BuildBitWriteRequest.
  rewrite !Hfull, !Htrunc by reflexivity.
  repeat split.
Qed.

Lemma BuildWriteRequest_payload_prefix_witness :
  BuildWriteRequest NewLocalStation "D" 100 2 (slice_of [x01; x02; x03; x04; x05; x06])
  = Return ("500000FFFF0300" +:+ "1000" +:+ "1000" +:+ "0114" +:+ "0000" +:+
            "640000" +:+ "A8" +:+ "0200" +:+ "01020304")
  /\ BuildWriteRequest NewLocalStation "D" 100 2 (slice_of [x01; x02; x03; x04; x05; x06])
     = BuildWriteRequest NewLocalStation "D" 100 2 (mkSlice [x01; x02; x03; x04] [x05; x06]).
Proof.
  pose proof (BuildWriteRequest_payload_prefix NewLocalStation "D" 100 2
                (slice_of [x01; x02; x03; x04; x05; x06])
                (mkSlice [x01; x02; x03; x04] [x05; x06])
                ltac:(lia) ltac:(vm_compute; discriminate)
                ltac:(vm_compute; discriminate) eq_refl)
    as (_ & _ & H1 & _ & H2 & _).
  split; [exact H1|exact H2].
Defined.

(** C10, as stated, fails: one point and a single byte of write data
    give no panic, but a frame whose payload is padded with a zero byte. *)
Lemma BuildWriteRequest_short_writeData_no_panic :
  len (slice_of [x01]) < 2 * 1
  /\ BuildWriteRequest NewLocalStation "D" 100 1 (slice_of [x01])
     = Return ("500000FFFF0300" +:+ "0E00" +:+ "1000" +:+ "0114" +:+ "0000" +:+
               "640000" +:+ "A8" +:+ "0100" +:+ "0100").
Proof. split; vm_compute; reflexivity. Qed.

(** C10, amended.  For [numPoints > 0], the slice
    [writeBuff.Bytes()[0:2*numPoints]] is checked against the capacity of
    the buffer's array, not against the length of [writeData].  With
    [writeData] shorter than [2*numPoints] bytes the builder panics when
    [writeData] is empty, or when it has at most 64 bytes and
    [2*numPoints] exceeds 64; when [writeData] has between 1 and 64 bytes
    and [2*numPoints] is at most 64, it returns a frame whose payload is
    [writeData] followed by zero bytes up to [2*numPoints].  With
    [numPoints >= 0] and at least [2*numPoints] bytes of [writeData],
    every slice is in bounds and the builder returns a frame. *)
Theorem buildWriteRequestHelper_bounds (h : station) (deviceName : string)
    (offset numPoints : Z) (writeData : slice) (subCommand : string) :
  strlen subCommand = 4 ->
  is_int64 numPoints ->
  len writeData <= MaxInt64 ->
  (0 < numPoints -> elems writeData = [] ->
     buildWriteRequestHelper h deviceName offset numPoints writeData subCommand
     = Panic "runtime error: slice bounds out of range")
  /\ (0 < numPoints -> len writeData <= 64 < 2 * numPoints ->
     buildWriteRequestHelper h deviceName offset numPoints writeData subCommand
     = Panic "runtime error: slice bounds out of range")
  /\ (0 < numPoints -> 0 < len writeData < 2 * numPoints -> 2 * numPoints <= 64 ->
     buildWriteRequestHelper h deviceName offset numPoints writeData subCommand
     = Return (frame_of h (write_body subCommand deviceName offset numPoints
                 (elems writeData
                  ++ replicate (Z.to_nat (2 * numPoints) - length (elems writeData)) x00))))
  /\ (0 <= numPoints -> 2 * numPoints <= len writeData ->
     buildWriteRequestHelper h deviceName offset numPoints writeData subCommand
     = Return (frame_of h (write_body subCommand deviceName offset numPoints
                 (take (Z.to_nat (2 * numPoints)) (elems writeData))))).
Proof.
  intros Hsub Hint Hmax.
  rewrite buildWriteRequestHelper_eq by exact Hsub.
  assert (Hrange : 0 < numPoints -> 0 < numPoints <= MaxInt64)
    by (unfold is_int64 in Hint; lia).
  split; [|split; [|split]].
  - intros Hpos He. rewrite payload_slice_panics; [reflexivity|].
    rewrite (cap_writeBuff_Bytes_empty _ He).
    destruct (wrap64_double numPoints (Hrange Hpos)) as [[_ ->]|Hneg]; lia.
  - intros Hpos Hlen. rewrite payload_slice_panics; [reflexivity|].
    pose proof (cap_writeBuff_Bytes_small writeData ltac:(lia)) as Hcap.
    destruct (wrap64_double numPoints (Hrange Hpos)) as [[_ ->]|Hneg]; lia.
  - intros Hpos Hlen H64.
    rewrite wrap64_id by (unfold is_int64, MinInt64, MaxInt64; lia).
    rewrite payload_slice_padded by lia. reflexivity.
  - intros Hn Hlen.
    rewrite wrap64_id by (unfold is_int64, MinInt64, MaxInt64 in *; lia).
    destruct (payload_slice_within writeData (2 * numPoints) ltac:(lia)) as [rest ->].
    reflexivity.
Qed.

Lemma buildWriteRequestHelper_bounds_witness :
  BuildWriteRequest NewLocalStation "D" 100 1 nil_slice
  = Panic "runtime error: slice bounds out of range"
  /\ BuildWriteRequest NewLocalStation "D" 100 33 (slice_of [x01; x02])
     = Panic "runtime error: slice bounds out of range"
  /\ BuildWriteRequest NewLocalStation "D" 100 2 (slice_of [x01; x02])
     = Return (frame_of NewLocalStation
                 (write_body WRITE_SUB_COMMAND "D" 100 2 [x01; x02; x00; x00]))
  /\ BuildWriteRequest NewLocalStation "D" 100 1 (slice_of [x01; x02; x03])
     = Return (frame_of NewLocalStation
                 (write_body WRITE_SUB_COMMAND "D" 100 1 [x01; x02])).
Proof.
  assert (Hint : forall n, 0 <= n <= 64 -> is_int64 n)
    by (unfold is_int64, MinInt64, MaxInt64; lia).
  assert (Hmax : forall bs, (length bs <= 64)%nat -> len (slice_of bs) <= MaxInt64)
    by (unfold len, MaxInt64; cbn [elems slice_of]; lia).
  pose proof (buildWriteRequestHelper_bounds NewLocalStation "D" 100 1 nil_slice
                WRITE_SUB_COMMAND eq_refl (Hint 1 ltac:(lia)) (Hmax [] ltac:(cbn; lia)))
    as (H1 & _).
  pose proof (buildWriteRequestHelper_bounds NewLocalStation "D" 100 33
                (slice_of [x01; x02]) WRITE_SUB_COMMAND eq_refl (Hint 33 ltac:(lia))
                (Hmax [x01; x02] ltac:(cbn; lia)))
    as (_ & H2 & _).
  pose proof (buildWriteRequestHelper_bounds NewLocalStation "D" 100 2
                (slice_of [x01; x02]) WRITE_SUB_COMMAND eq_refl (Hint 2 ltac:(lia))
                (Hmax [x01; x02] ltac:(cbn; lia)))
    as (_ & _ & H3 & _).
  pose proof (buildWriteRequestHelper_bounds NewLocalStation "D" 100 1
                (slice_of [x01; x02; x03]) WRITE_SUB_COMMAND eq_refl (Hint 1 ltac:(lia))
                (Hmax [x01; x02; x03] ltac:(cbn; lia)))
    as (_ & _ & _ & H4).
  split; [|split; [|split]].
  - apply H1; [lia|reflexivity].
  - apply H2; [lia|unfold len; cbn; lia].
  - apply H3; [lia|unfold len; cbn; lia|lia].
  - apply H4; [lia|unfold len; cbn; lia].
Defined.

(** ** C9: unknown device names *)

Lemma frame_of_write_no_code (h : station) (sub deviceName : string)
    (offset numPoints : Z) (payload : list byte) :
  strlen sub = 4 -> DeviceCodes_at deviceName = "" ->
  frame_of h (write_body sub deviceName offset numPoints payload)
  = header h +:+ hex_of_bytes (low_bytes 2 (11 + Z.of_nat (length payload))) +:+
    MONITORING_TIMER +:+ WRITE_COMMAND +:+ sub +:+
    hex_of_bytes (low_bytes 3 offset) +:+
    hex_of_bytes (low_bytes 2 numPoints) +:+ hex_of_bytes payload.
Proof.
  intros Hsub Hat. unfold frame_of. rewrite strlen_write_body, Hsub, Hat.
  change (18 + 4 + strlen "") with (11 * 2).
  replace (11 * 2 + 2 * Z.of_nat (length payload))
    with ((11 + Z.of_nat (length payload)) * 2) by lia.
  rewrite Z.div_mul by lia.
  unfold write_body. rewrite Hat, append_empty_l. reflexivity.
Qed.

Lemma frame_of_write_D (h : station) (sub : string)
    (offset numPoints : Z) (payload : list byte) :
  strlen sub = 4 ->
  frame_of h (write_body sub "D" offset numPoints payload)
  = header h +:+ hex_of_bytes (low_bytes 2 (12 + Z.of_nat (length payload))) +:+
    MONITORING_TIMER +:+ WRITE_COMMAND +:+ sub +:+
    hex_of_bytes (low_bytes 3 offset) +:+ "A8" +:+
    hex_of_bytes (low_bytes 2 numPoints) +:+ hex_of_bytes payload.
Proof.
  intros Hsub. unfold frame_of. rewrite strlen_write_body, Hsub.
  change (18 + 4 + strlen (DeviceCodes_at "D")) with (12 * 2).
  replace (12 * 2 + 2 * Z.of_nat (length payload))
    with ((12 + Z.of_nat (length payload)) * 2) by lia.
  rewrite Z.div_mul by lia. reflexivity.
Qed.

(** The write builder for an unknown name, against the same call for
    the registered name "D": the same panic, or the frame of the same
    payload without the device code byte. *)
Lemma write_unknown_against_D (h : station) (sub deviceName : string)
    (offset numPoints : Z) (writeData : slice) :
  strlen sub = 4 -> DeviceCodes_at deviceName = "" ->
  (forall msg : string,
     buildWriteRequestHelper h deviceName offset numPoints writeData sub = Panic msg
     <-> buildWriteRequestHelper h "D" offset numPoints writeData sub = Panic msg)
  /\ (forall frame : string,
        buildWriteRequestHelper h deviceName offset numPoints writeData sub
        = Return frame ->
        exists payload : list byte,
          frame
          = header h +:+ hex_of_bytes (low_bytes 2 (11 + Z.of_nat (length payload))) +:+
            MONITORING_TIMER +:+ WRITE_COMMAND +:+ sub +:+
            hex_of_bytes (low_bytes 3 offset) +:+
            hex_of_bytes (low_bytes 2 numPoints) +:+ hex_of_bytes payload
          /\ buildWriteRequestHelper h "D" offset numPoints writeData sub
             = Return
                 (header h +:+
                  hex_of_bytes (low_bytes 2 (12 + Z.of_nat (length payload))) +:+
                  MONITORING_TIMER +:+ WRITE_COMMAND +:+ sub +:+
                  hex_of_bytes (low_bytes 3 offset) +:+ "A8" +:+
                  hex_of_bytes (low_bytes 2 numPoints) +:+ hex_of_bytes payload)).
Proof.
  intros Hsub Hat. rewrite !buildWriteRequestHelper_eq by exact Hsub.
  destruct (slice_expr _ 0 _) as [writeB|msg0]; rewrite ?Go_bind_Return.
  - split; [intros msg; split; discriminate|].
    intros frame H. apply Return_inj in H. subst frame.
    exists (elems writeB).
    rewrite frame_of_write_no_code, frame_of_write_D by assumption.
    split; reflexivity.
  - split; [intros msg; split; intros H; exact H|].
    intros frame H. discriminate H.
Qed.

(** C9.  For a device name that is not in [DeviceCodes], the builders
    report nothing: the device code is the empty string.  The read
    builders return a frame whose body has no device code byte (11 bytes,
    data length "0B00", two characters shorter than for a registered
    name).  The write builders, given [numPoints >= 0] and at least
    [2*numPoints] bytes of write data, return the frame of
    [11 + 2*numPoints] body bytes without the device code byte; on any
    write data they panic exactly when the same call for the registered
    name "D" panics, and every frame they return is the frame of "D"
    with the code "A8" left out and the data length one less. *)
Theorem unknown_device_name_silently_dropped (h : station) (deviceName : string)
    (offset numPoints : Z) :
  DeviceCodes !! deviceName = None ->
  let offsetHex := hex_of_bytes (low_bytes 3 offset) in
  let points := hex_of_bytes (low_bytes 2 numPoints) in
  DeviceCodes_at deviceName = ""
  /\ BuildReadRequest h deviceName offset numPoints
     = Return (header h +:+ "0B00" +:+ MONITORING_TIMER +:+ READ_COMMAND +:+
               READ_SUB_COMMAND +:+ offsetHex +:+ points)
  /\ BuildBitReadRequest h deviceName offset numPoints
     = Return (header h +:+ "0B00" +:+ MONITORING_TIMER +:+ READ_COMMAND +:+
               BIT_READ_SUB_COMMAND +:+ offsetHex +:+ points)
  /\ (forall writeData : slice,
        0 <= numPoints -> 2 * numPoints <= len writeData ->
        len writeData <= MaxInt64 ->
        BuildWriteRequest h deviceName offset numPoints writeData
        = Return (header h +:+ hex_of_bytes (low_bytes 2 (11 + 2 * numPoints)) +:+
                  MONITORING_TIMER +:+ WRITE_COMMAND +:+ WRITE_SUB_COMMAND +:+
                  offsetHex +:+ points +:+
                  hex_of_bytes (take (Z.to_nat (2 * numPoints)) (elems writeData)))
        /\ BuildBitWriteRequest h deviceName offset numPoints writeData
           = Return (header h +:+ hex_of_bytes (low_bytes 2 (11 + 2 * numPoints)) +:+
                     MONITORING_TIMER +:+ WRITE_COMMAND +:+ BIT_WRITE_SUB_COMMAND +:+
                     offsetHex +:+ points +:+
                     hex_of_bytes (take (Z.to_nat (2 * numPoints)) (elems writeData))))
  /\ (forall writeData : slice,
        (forall msg : string,
           BuildWriteRequest h deviceName offset numPoints writeData = Panic msg
           <-> BuildWriteRequest h "D" offset numPoints writeData = Panic msg)
        /\ (forall msg : string,
              BuildBitWriteRequest h deviceName offset numPoints writeData = Panic msg
              <-> BuildBitWriteRequest h "D" offset numPoints writeData = Panic msg)
        /\ (forall frame : string,
              BuildWriteRequest h deviceName offset numPoints writeData = Return frame ->
              exists payload : list byte,
                frame
                = header h +:+
                  hex_of_bytes (low_bytes 2 (11 + Z.of_nat (length payload))) +:+
                  MONITORING_TIMER +:+ WRITE_COMMAND +:+ WRITE_SUB_COMMAND +:+
                  offsetHex +:+ points +:+ hex_of_bytes payload
                /\ BuildWriteRequest h "D" offset numPoints writeData
                   = Return
                       (header h +:+
                        hex_of_bytes (low_bytes 2 (12 + Z.of_nat (length payload))) +:+
                        MONITORING_TIMER +:+ WRITE_COMMAND +:+ WRITE_SUB_COMMAND +:+
                        offsetHex +:+ "A8" +:+ points +:+ hex_of_bytes payload))
        /\ (forall frame : string,
              BuildBitWriteRequest h deviceName offset numPoints writeData
              = Return frame ->
              exists payload : list byte,
                frame
                = header h +:+
                  hex_of_bytes (low_bytes 2 (11 + Z.of_nat (length payload))) +:+
                  MONITORING_TIMER +:+ WRITE_COMMAND +:+ BIT_WRITE_SUB_COMMAND +:+
                  offsetHex +:+ points +:+ hex_of_bytes payload
                /\ BuildBitWriteRequest h "D" offset numPoints writeData
                   = Return
                       (header h +:+
                        hex_of_bytes (low_bytes 2 (12 + Z.of_nat (length payload))) +:+
                        MONITORING_TIMER +:+ WRITE_COMMAND +:+ BIT_WRITE_SUB_COMMAND +:+
                        offsetHex +:+ "A8" +:+ points +:+ hex_of_bytes payload)))
  /\ (forall frame frameD : string,
        BuildReadRequest h deviceName offset numPoints = Return frame ->
        BuildReadRequest h "D" offset numPoints = Return frameD ->
        strlen frame = strlen frameD - 2).
Proof.
  intros Hnone offsetHex points. subst offsetHex points.
  pose proof (DeviceCodes_unregistered _ Hnone) as Hat.
  assert (Hread : forall sub, strlen sub = 4 ->
            frame_of h (read_body sub deviceName offset numPoints)
            = header h +:+ "0B00" +:+ MONITORING_TIMER +:+ READ_COMMAND +:+ sub +:+
              hex_of_bytes (low_bytes 3 offset) +:+ hex_of_bytes (low_bytes 2 numPoints)).
  { intros sub Hsub. unfold frame_of. rewrite strlen_read_body, Hsub, Hat.
    unfold read_body. rewrite Hat, append_empty_l. reflexivity. }
  split; [exact Hat|]. split; [|split; [|split; [|split]]].
  - rewrite BuildReadRequest_eq. apply f_equal, Hread. reflexivity.
  - rewrite BuildBitReadRequest_eq. apply f_equal, Hread. reflexivity.
  - intros wd Hn Hlen Hmax. unfold BuildWriteRequest, BuildBitWriteRequest.
    rewrite !buildWriteRequestHelper_within by first [reflexivity | assumption].
    rewrite !frame_of_write_no_code by first [reflexivity | assumption].
    assert (Hl : Z.of_nat (length (take (Z.to_nat (2 * numPoints)) (elems wd)))
                 = 2 * numPoints).
    { rewrite length_take. unfold len in Hlen. lia. }
    rewrite Hl. split; reflexivity.
  - intros wd.
    destruct (write_unknown_against_D h WRITE_SUB_COMMAND deviceName offset numPoints
                wd eq_refl Hat) as [Hp Hf].
    destruct (write_unknown_against_D h BIT_WRITE_SUB_COMMAND deviceName offset
                numPoints wd eq_refl Hat) as [Hp' Hf'].
    split; [exact Hp|]. split; [exact Hp'|]. split; [exact Hf|exact Hf'].
  - intros frame frameD. rewrite !BuildReadRequest_eq. intros [= <-] [= <-].
    unfold frame_of. rewrite !strlen_append, !strlen_hex_of_bytes, !length_low_bytes.
    rewrite !strlen_read_body, Hat. change (strlen (DeviceCodes_at "D")) with 2.
    change (strlen "") with 0. lia.
Qed.

Lemma unknown_device_name_silently_dropped_witness :
  BuildReadRequest NewLocalStation "ZR" 100 1
  = Return ("500000FFFF0300" +:+ "0B00" +:+ "1000" +:+ "0104" +:+ "0000" +:+
            "640000" +:+ "0100")
  /\ BuildWriteRequest NewLocalStation "ZR" 100 2
       (slice_of [x01; x02; x03; x04; x05; x06])
     = Return ("500000FFFF0300" +:+ "0F00" +:+ "1000" +:+ "0114" +:+ "0000" +:+
               "640000" +:+ "0200" +:+ "01020304")
  /\ BuildBitWriteRequest NewLocalStation "ZR" 100 2
       (slice_of [x01; x02; x03; x04; x05; x06])
     = Return ("500000FFFF0300" +:+ "0F00" +:+ "1000" +:+ "0114" +:+ "0100" +:+
               "640000" +:+ "0200" +:+ "01020304")
  /\ exists payload : list byte,
       "500000FFFF0300" +:+ "0F00" +:+ "1000" +:+ "0114" +:+ "0000" +:+
       "640000" +:+ "0200" +:+ "01020304"
       = header NewLocalStation +:+
         hex_of_bytes (low_bytes 2 (11 + Z.of_nat (length payload))) +:+
         MONITORING_TIMER +:+ WRITE_COMMAND +:+ WRITE_SUB_COMMAND +:+
         "640000" +:+ "0200" +:+ hex_of_bytes payload
       /\ BuildWriteRequest NewLocalStation "D" 100 2
            (slice_of [x01; x02; x03; x04; x05; x06])
          = Return
              (header NewLocalStation +:+
               hex_of_bytes (low_bytes 2 (12 + Z.of_nat (length payload))) +:+
               MONITORING_TIMER +:+ WRITE_COMMAND +:+ WRITE_SUB_COMMAND +:+
               "640000" +:+ "A8" +:+ "0200" +:+ hex_of_bytes payload).
Proof.
  pose proof (unknown_device_name_silently_dropped NewLocalStation "ZR" 100 1 eq_refl)
    as (_ & Hread & _).
  pose proof (unknown_device_name_silently_dropped NewLocalStation "ZR" 100 2 eq_refl)
    as (_ & _ & _ & Hwrite & Hany & _).
  destruct (Hwrite (slice_of [x01; x02; x03; x04; x05; x06])
              ltac:(lia) ltac:(vm_compute; discriminate)
              ltac:(vm_compute; discriminate)) as [Hw Hb].
  destruct (Hany (slice_of [x01; x02; x03; x04; x05; x06])) as (_ & _ & Hf & _).
  split; [exact Hread|]. split; [exact Hw|]. split; [exact Hb|].
  apply Hf. exact Hw.
Defined.

(** ** C8: the health check *)

Lemma liveness_failure_not_transport (e : error) :
  liveness_failure e -> forall msg : string, e <> net_Error msg.
Proof. intros [detail ->] msg. discriminate. Qed.

Lemma byte_range_split (lo mid hi : nat) (l : list byte) :
  (lo <= mid <= hi)%nat ->
  byte_range lo hi l = byte_range lo mid l ++ byte_range mid hi l.
Proof.
  intros H. unfold byte_range.
  rewrite <- (take_drop (mid - lo) (drop lo (take hi l))).
  f_equal.
  - rewrite take_drop_commute, take_take.
    replace ((lo + (mid - lo)) `min` hi)%nat with mid by lia. reflexivity.
  - rewrite drop_drop. f_equal. lia.
Qed.

Lemma health_check_ok_echo (resp : list byte) :
  health_check_ok resp <-> length resp = 18%nat /\ drop 11 resp = echo.
Proof.
  unfold health_check_ok. split.
  - intros (Hlen & Hh & Hb). split; [exact Hlen|].
    change "0500" with (hex_of_bytes [x05; x00]) in Hh.
    apply hex_of_bytes_inj in Hh.
    rewrite <- (take_ge resp 18) at 1 by lia. fold (byte_range 11 18 resp).
    rewrite (byte_range_split 11 13 18) by lia. rewrite Hh, Hb. reflexivity.
  - intros (Hlen & Hd). split; [exact Hlen|].
    assert (H18 : byte_range 11 18 resp = echo).
    { unfold byte_range. rewrite take_ge by lia. exact Hd. }
    rewrite (byte_range_split 11 13 18) in H18 by lia.
    assert (Hl : length (byte_range 11 13 resp) = 2%nat).
    { unfold byte_range. rewrite length_drop, length_take. lia. }
    destruct (byte_range 11 13 resp) as [|a [|b [|]]]; try discriminate.
    injection H18 as -> -> ->. split; reflexivity.
Qed.

(** The verification part of [HealthCheck], reached when the request
    went out and [received] came back. *)
Lemma HealthCheck_reaches_verification (c : client3E) (requestStr : string)
    (payload received : list byte) :
  BuildHealthCheckRequest (stn c) = Return requestStr ->
  hex_DecodeString requestStr = (payload, None) ->
  conn_Write (conn c) payload = None ->
  conn_Read (conn c) 30 = (received, None) ->
  (length received <= 30)%nat ->
  HealthCheck c =
    if negb (Z.of_nat (length received) =? 18) then
      Return (Some (errors_New
        ("plc connect test is fail: return length is [" +:+ hex_of_bytes received +:+ "]")))
    else if negb (String.eqb "0500" (hex_of_bytes (byte_range 11 13 received))) then
      Return (Some (errors_New
        ("plc connect test is fail: return header is ["
         +:+ hex_of_bytes (byte_range 11 13 received) +:+ "]")))
    else if negb (String.eqb "4142434445" (hex_of_bytes (byte_range 13 18 received))) then
      Return (Some (errors_New
        ("plc connect test is fail: return body is ["
         +:+ hex_of_bytes (byte_range 13 18 received) +:+ "]")))
    else Return None.
Proof.
  intros Hreq Hdec Hw Hr Hlen. unfold HealthCheck.
  rewrite Hreq, Go_bind_Return, Hdec, Hw, Hr. cbv zeta.
  rewrite take_ge by lia.
  rewrite slice_expr_within.
  2: lia.
  2: { unfold len, make. cbn [elems].
       rewrite length_app, length_drop, length_replicate. lia. }
  rewrite Go_bind_Return. unfold Sprintf_X at 1. cbn [elems].
  assert (Hb : byte_range (Z.to_nat 0) (Z.to_nat (Z.of_nat (length received)))
                 (received ++ drop (length received) (elems (make 30 30)))
               = received).
  { unfold byte_range. rewrite Nat2Z.id, drop_0, take_app_length. reflexivity. }
  rewrite !Hb.
  destruct (Z.of_nat (length received) =? 18) eqn:E18; cbn [negb]; [|reflexivity].
  apply Z.eqb_eq in E18.
  rewrite !slice_expr_within by (unfold len; cbn [elems]; lia).
  rewrite !Go_bind_Return. unfold Sprintf_X. cbn [elems].
  reflexivity.
Qed.

(** C8.  Once the request has been sent and a response received,
    [HealthCheck] returns no error exactly when the response is 18 bytes
    long, bytes [11:13) hex-encode to "0500" and bytes [13:18) are the
    ASCII bytes of "ABCDE"; for every other response it returns a
    liveness-check failure, which is not a transport error.  The bytes
    [0:11) are not looked at, and changing any one of the bytes [11:18)
    of a good response makes it fail. *)
Theorem HealthCheck_verification (c : client3E) (requestStr : string)
    (payload received : list byte) :
  BuildHealthCheckRequest (stn c) = Return requestStr ->
  hex_DecodeString requestStr = (payload, None) ->
  conn_Write (conn c) payload = None ->
  conn_Read (conn c) 30 = (received, None) ->
  (length received <= 30)%nat ->
  (HealthCheck c = Return None <-> health_check_ok received)
  /\ (~ health_check_ok received ->
      exists e : error,
        HealthCheck c = Return (Some e)
        /\ liveness_failure e
        /\ forall msg : string, e <> net_Error msg)
  /\ (forall header : list byte,
        length header = 11%nat -> health_check_ok (header ++ echo))
  /\ (health_check_ok received ->
      forall (i : nat) (b old : byte),
        (11 <= i < 18)%nat -> received !! i = Some old -> b <> old ->
        ~ health_check_ok (<[i := b]> received)).
Proof.
  intros Hreq Hdec Hw Hr Hlen.
  rewrite (HealthCheck_reaches_verification c requestStr payload received)
    by assumption.
  assert (Hfail : forall detail : string,
            liveness_failure
              (errors_New ("plc connect test is fail: return " +:+ detail))).
  { intros detail. exists detail. reflexivity. }
  assert (Hcases :
    (health_check_ok received
     /\ (Z.of_nat (length received) =? 18) = true
     /\ String.eqb "0500" (hex_of_bytes (byte_range 11 13 received)) = true
     /\ String.eqb "4142434445" (hex_of_bytes (byte_range 13 18 received)) = true)
    \/ (~ health_check_ok received
        /\ ((Z.of_nat (length received) =? 18) = false
            \/ ((Z.of_nat (length received) =? 18) = true
                /\ String.eqb "0500" (hex_of_bytes (byte_range 11 13 received)) = false)
            \/ ((Z.of_nat (length received) =? 18) = true
                /\ String.eqb "0500" (hex_of_bytes (byte_range 11 13 received)) = true
                /\ String.eqb "4142434445"
                     (hex_of_bytes (byte_range 13 18 received)) = false)))).
  { unfold health_check_ok.
    destruct (Z.of_nat (length received) =? 18) eqn:E1.
    2: { right. apply Z.eqb_neq in E1. split; [intros (H & _); lia|left; reflexivity]. }
    apply Z.eqb_eq in E1.
    destruct (String.eqb "0500" (hex_of_bytes (byte_range 11 13 received))) eqn:E2.
    2: { right. apply String.eqb_neq in E2.
         split; [intros (_ & H & _); congruence|right; left; split; reflexivity]. }
    apply String.eqb_eq in E2.
    destruct (String.eqb "4142434445" (hex_of_bytes (byte_range 13 18 received))) eqn:E3.
    - left. apply String.eqb_eq in E3.
      change "4142434445" with (hex_of_bytes [x41; x42; x43; x44; x45]) in E3.
      apply hex_of_bytes_inj in E3.
      split; [|repeat split]. split; [lia|]. split; congruence.
    - right. apply String.eqb_neq in E3.
      split; [|right; right; repeat split].
      intros (_ & _ & H). rewrite H in E3. apply E3. reflexivity. }
  split; [|split; [|split]].
  - destruct Hcases as [(Hok & -> & -> & ->)|(Hno & [->|[(-> & ->)|(-> & -> & ->)]])];
      cbn [negb]; split; try discriminate; try (intros; reflexivity);
      try (intros; assumption); intros; contradiction.
  - intros Hno.
    destruct Hcases as [(Hok & _)|(_ & [->|[(-> & ->)|(-> & -> & ->)]])];
      [contradiction|..]; cbn [negb]; eexists;
      (split; [reflexivity|]);
      (split; [|apply liveness_failure_not_transport]);
      first [apply (Hfail ("length is [" +:+ _))
            |apply (Hfail ("header is [" +:+ _))
            |apply (Hfail ("body is [" +:+ _))].
  - intros header Hh. apply health_check_ok_echo.
    split; [rewrite length_app, Hh; reflexivity|].
    rewrite drop_app_length' by (symmetry; exact Hh). reflexivity.
  - intros Hok i b old Hi Hold Hne Hok'.
    apply health_check_ok_echo in Hok as (Hl & He).
    apply health_check_ok_echo in Hok' as (Hl' & He').
    assert (H1 : echo !! (i - 11)%nat = Some old).
    { rewrite <- He, lookup_drop. replace (11 + (i - 11))%nat with i by lia. exact Hold. }
    assert (H2 : echo !! (i - 11)%nat = Some b).
    { rewrite <- He', lookup_drop. replace (11 + (i - 11))%nat with i by lia.
      apply list_lookup_insert_eq. lia. }
    congruence.
Qed.

Lemma HealthCheck_verification_witness :
  HealthCheck (mkClient "192.168.0.1:5007" NewLocalStation (answering good_response))
  = Return None
  /\ (exists e : error,
        HealthCheck (mkClient "192.168.0.1:5007" NewLocalStation (answering bad_response))
        = Return (Some e)
        /\ liveness_failure e
        /\ forall msg : string, e <> net_Error msg)
  /\ ~ health_check_ok bad_response.
Proof.
  pose proof (HealthCheck_verification
                (mkClient "192.168.0.1:5007" NewLocalStation (answering good_response))
                _ _ good_response eq_refl eq_refl eq_refl eq_refl
                ltac:(vm_compute; lia)) as (Hgood & _ & _ & Hchange).
  pose proof (HealthCheck_verification
                (mkClient "192.168.0.1:5007" NewLocalStation (answering bad_response))
                _ _ bad_response eq_refl eq_refl eq_refl eq_refl
                ltac:(vm_compute; lia)) as (_ & Hbad & _).
  assert (Hok : health_check_ok good_response) by (repeat split).
  assert (Hno : ~ health_check_ok bad_response).
  { apply (Hchange Hok 17%nat x46 x45); [lia|reflexivity|discriminate]. }
  split; [apply Hgood, Hok|]. split; [apply Hbad, Hno|exact Hno].
Defined.

(** * Further properties of the parsers *)

Lemma Sprintf_X_uint8_leading_zero (b : byte) :
  (16 <= Z_of_byte b -> Sprintf_X_uint8 b = hex_of_bytes [b])
  /\ (Z_of_byte b < 16 -> hex_of_bytes [b] = "0" +:+ Sprintf_X_uint8 b).
Proof.
  split.
  - apply Sprintf_X_uint8_two_digits.
  - destruct b; vm_compute; intros H; first [reflexivity | discriminate H].
Qed.

(** X1.  [parser_1E.Process] on any buffer: below 2 bytes the length
    error; at exactly 2 bytes the PLC error carrying the hex of both
    bytes; from 3 bytes on, with no error, a Response whose Payload is
    [resp[2:]], whose 3E-only fields are empty, and whose SubHeader and
    EndCode are the two-digit hex of bytes 0 and 1 with a leading zero
    left out. *)
Theorem parser_1E_Process_spec (resp : slice) :
  (len resp < 2 ->
     parser_1E_Process resp
     = Return (None, Some (errors_New "length must be larger than 2 bytes")))
  /\ (len resp = 2 ->
     parser_1E_Process resp
     = Return (None, Some (fmt_Errorf
         ("PLC returned an error code: " +:+ hex_of_bytes (elems resp)))))
  /\ (2 < len resp ->
     exists (b0 b1 : byte) (r : Response),
       elems resp !! 0%nat = Some b0 /\ elems resp !! 1%nat = Some b1
       /\ parser_1E_Process resp = Return (Some r, None)
       /\ Payload r = drop 2 (elems resp)
       /\ (NetworkNum r = "" /\ PCNum r = "" /\ UnitIONum r = ""
           /\ UnitStationNum r = "" /\ DataLen r = "" /\ ErrInfo r = [])
       /\ (16 <= Z_of_byte b0 -> SubHeader r = hex_of_bytes [b0])
       /\ (Z_of_byte b0 < 16 -> hex_of_bytes [b0] = "0" +:+ SubHeader r)
       /\ (16 <= Z_of_byte b1 -> EndCode r = hex_of_bytes [b1])
       /\ (Z_of_byte b1 < 16 -> hex_of_bytes [b1] = "0" +:+ EndCode r)).
Proof.
  split; [apply parser_1E_Process_short|].
  split; [apply parser_1E_Process_error_code|].
  intros Hlen. unfold len in Hlen.
  destruct (elems resp) as [|b0 [|b1 [|b2 rest]]] eqn:E; cbn [length] in Hlen; try lia.
  exists b0, b1. eexists.
  split; [reflexivity|]. split; [reflexivity|].
  split; [apply (parser_1E_Process_long resp b0 b1 b2 rest E)|].
  cbn [Payload NetworkNum PCNum UnitIONum UnitStationNum DataLen ErrInfo
       SubHeader EndCode].
  split; [reflexivity|]. split; [repeat split|].
  pose proof (Sprintf_X_uint8_leading_zero b0) as [? ?].
  pose proof (Sprintf_X_uint8_leading_zero b1) as [? ?].
  repeat split; assumption.
Qed.

Lemma parser_1E_Process_spec_witness :
  parser_1E_Process nil_slice
  = Return (None, Some (errors_New "length must be larger than 2 bytes"))
  /\ parser_1E_Process (slice_of [xc0; x51])
     = Return (None, Some (fmt_Errorf "PLC returned an error code: C051"))
  /\ exists (b0 b1 : byte) (r : Response),
       elems (slice_of [x81; x0a; x12; x34]) !! 0%nat = Some b0
       /\ elems (slice_of [x81; x0a; x12; x34]) !! 1%nat = Some b1
       /\ parser_1E_Process (slice_of [x81; x0a; x12; x34]) = Return (Some r, None)
       /\ Payload r = [x12; x34].
Proof.
  pose proof (parser_1E_Process_spec nil_slice) as (H1 & _).
  pose proof (parser_1E_Process_spec (slice_of [xc0; x51])) as (_ & H2 & _).
  pose proof (parser_1E_Process_spec (slice_of [x81; x0a; x12; x34])) as (_ & _ & H3).
  split; [apply H1; vm_compute; reflexivity|].
  split; [apply H2; reflexivity|].
  destruct H3 as (b0 & b1 & r & E0 & E1 & Hr & Hp & _); [vm_compute; reflexivity|].
  exists b0, b1, r. repeat split; assumption.
Defined.

Lemma hex_of_byte_ranges (lo mid hi : nat) (l : list byte) :
  (lo <= mid <= hi)%nat ->
  hex_of_bytes (byte_range lo mid l) +:+ hex_of_bytes (byte_range mid hi l)
  = hex_of_bytes (byte_range lo hi l).
Proof.
  intros H. rewrite (byte_range_split lo mid hi) by exact H.
  symmetry. apply hex_of_bytes_app.
Qed.

(** X2.  Round trip of [parser_3E.Process]: for a buffer of at least 22
    bytes the seven text fields, concatenated in wire order, are 22 hex
    characters that decode to the first 11 bytes of the buffer, and
    these followed by the Payload are the buffer. *)
Theorem parser_3E_Process_round_trip (resp : slice) :
  22 <= len resp ->
  exists r : Response,
    parser_3E_Process resp = Return (Some r, None)
    /\ String.length (text_fields r) = 22%nat
    /\ hex_DecodeString (text_fields r) = (take 11 (elems resp), None)
    /\ take 11 (elems resp) ++ Payload r = elems resp.
Proof.
  intros Hlen. exists (parsed_3E (elems resp)).
  split; [apply parser_3E_Process_long, Hlen|].
  assert (Ht : text_fields (parsed_3E (elems resp))
               = hex_of_bytes (take 11 (elems resp))).
  { unfold text_fields, parsed_3E.
    cbn [SubHeader NetworkNum PCNum UnitIONum UnitStationNum DataLen EndCode].
    rewrite (hex_of_byte_ranges 7 9 11), (hex_of_byte_ranges 6 7 11),
      (hex_of_byte_ranges 4 6 11), (hex_of_byte_ranges 3 4 11),
      (hex_of_byte_ranges 2 3 11), (hex_of_byte_ranges 0 2 11) by lia.
    unfold byte_range. rewrite drop_0. reflexivity. }
  rewrite Ht. split; [|split].
  - rewrite length_hex_of_bytes, length_take. unfold len in Hlen. lia.
  - apply decodes_hex_of_bytes.
  - cbn [parsed_3E Payload]. apply take_drop.
Qed.

Lemma parser_3E_Process_round_trip_witness :
  exists r : Response,
    parser_3E_Process buffer_22_C051 = Return (Some r, None)
    /\ String.length (text_fields r) = 22%nat
    /\ hex_DecodeString (text_fields r) = (take 11 (elems buffer_22_C051), None)
    /\ take 11 (elems buffer_22_C051) ++ Payload r = elems buffer_22_C051.
Proof.
  apply (parser_3E_Process_round_trip buffer_22_C051). vm_compute. discriminate.
Defined.

(** X3.  A response that passes the verification of [HealthCheck] has 18
    bytes, so [parser_3E.Process] rejects it with the length error. *)
Theorem health_response_rejected_by_parser_3E (resp : slice) :
  health_check_ok (elems resp) ->
  parser_3E_Process resp
  = Return (None, Some (errors_New "length must be larger than 22 byte")).
Proof.
  intros (Hlen & _). apply parser_3E_Process_short. unfold len. lia.
Qed.

Lemma health_response_rejected_by_parser_3E_witness :
  parser_3E_Process (slice_of good_response)
  = Return (None, Some (errors_New "length must be larger than 22 byte")).
Proof.
  apply (health_response_rejected_by_parser_3E (slice_of good_response)).
  repeat split.
Defined.

(** * Further properties of the request builders *)

Lemma append_inj_length (a a' b b' : string) :
  String.length a = String.length a' ->
  a +:+ b = a' +:+ b' -> a = a' /\ b = b'.
Proof.
  revert a'. induction a as [|c a IH]; intros [|c' a'] Hlen H;
    try discriminate Hlen.
  - split; [reflexivity|exact H].
  - rewrite !append_cons in H. injection H as -> H.
    injection Hlen as Hlen. destruct (IH a' Hlen H) as [-> ->].
    split; reflexivity.
Qed.

Lemma low_bytes_mod (k : nat) (v : Z) :
  low_bytes k (v mod 256 ^ Z.of_nat k) = low_bytes k v.
Proof.
  revert v. induction k as [|k IH]; intros v; [reflexivity|].
  cbn [low_bytes].
  rewrite Nat2Z.inj_succ, Z.pow_succ_r by lia.
  assert (Hpos : 0 < 256 ^ Z.of_nat k) by (apply Z.pow_pos_nonneg; lia).
  rewrite Z.rem_mul_r by lia.
  pose proof (Z.mod_pos_bound v 256 ltac:(lia)) as Hb.
  set (x := (v / 256) mod 256 ^ Z.of_nat k).
  rewrite (Z.mul_comm 256 x).
  f_equal.
  - apply byte_of_Z_mod. rewrite Z.mod_add by lia. apply Z.mod_mod. lia.
  - rewrite Z.div_add, (Z.div_small (v mod 256)) by lia.
    rewrite Z.add_0_l. subst x. apply IH.
Qed.

(** The low [k] bytes of two values agree exactly when the values agree
    modulo [256^k]. *)
Lemma low_bytes_eq_iff (k : nat) (v w : Z) :
  low_bytes k v = low_bytes k w <-> v mod 256 ^ Z.of_nat k = w mod 256 ^ Z.of_nat k.
Proof.
  split; intros H.
  - rewrite <- !le_value_low_bytes, H. reflexivity.
  - rewrite <- (low_bytes_mod k v), <- (low_bytes_mod k w), H. reflexivity.
Qed.

Lemma frame_of_inj (h : station) (body body' : string) :
  frame_of h body = frame_of h body' -> body = body'.
Proof.
  unfold frame_of. intros H. apply String.app_inj in H.
  apply append_inj_length in H as [_ H]; [exact H|].
  rewrite !length_hex_of_bytes, !length_low_bytes. reflexivity.
Qed.

(** Two read bodies under one sub-command give the same frame exactly
    when device code, offset modulo 2^24 and points modulo 2^16 agree. *)
Lemma read_frames_equal_iff (h : station) (sub d1 d2 : string) (o1 o2 n1 n2 : Z) :
  frame_of h (read_body sub d1 o1 n1) = frame_of h (read_body sub d2 o2 n2)
  <-> DeviceCodes_at d1 = DeviceCodes_at d2
      /\ o1 mod 2 ^ 24 = o2 mod 2 ^ 24
      /\ n1 mod 2 ^ 16 = n2 mod 2 ^ 16.
Proof.
  split.
  - intros H. apply frame_of_inj in H. unfold read_body in H.
    do 3 apply String.app_inj in H.
    apply append_inj_length in H as [Ho H];
      [|rewrite !length_hex_of_bytes, !length_low_bytes; reflexivity].
    assert (Hl : String.length (DeviceCodes_at d1) = String.length (DeviceCodes_at d2)).
    { apply (f_equal String.length) in H.
      rewrite !length_append, !length_hex_of_bytes, !length_low_bytes in H. lia. }
    apply append_inj_length in H as [Hc Hn]; [|exact Hl].
    apply hex_of_bytes_inj, low_bytes_eq_iff in Ho.
    apply hex_of_bytes_inj, low_bytes_eq_iff in Hn.
    split; [exact Hc|]. split; [exact Ho|exact Hn].
  - intros (Hc & Ho & Hn). unfold frame_of, read_body.
    apply (low_bytes_eq_iff 3) in Ho. apply (low_bytes_eq_iff 2) in Hn.
    rewrite !strlen_append, !strlen_hex_of_bytes, !length_low_bytes.
    rewrite Hc, Ho, Hn. reflexivity.
Qed.

(** X4.  Two read requests of one station are the same frame exactly
    when their device names have the same code and their offsets agree
    modulo 2^24 and their point counts modulo 2^16: an offset beyond 24
    bits, or a negative one, is sent as another address, without error. *)
Theorem BuildReadRequest_same_frame_iff (h : station) (d1 d2 : string)
    (o1 o2 n1 n2 : Z) :
  BuildReadRequest h d1 o1 n1 = BuildReadRequest h d2 o2 n2
  <-> DeviceCodes_at d1 = DeviceCodes_at d2
      /\ o1 mod 2 ^ 24 = o2 mod 2 ^ 24
      /\ n1 mod 2 ^ 16 = n2 mod 2 ^ 16.
Proof.
  rewrite !BuildReadRequest_eq. rewrite <- read_frames_equal_iff. split.
  - apply Return_inj.
  - intros ->. reflexivity.
Qed.

(** No two registered device names share a code, and no code is empty. *)
Lemma DeviceCodes_at_inj (d1 d2 c1 c2 : string) :
  DeviceCodes !! d1 = Some c1 -> DeviceCodes !! d2 = Some c2 ->
  DeviceCodes_at d1 = DeviceCodes_at d2 -> d1 = d2.
Proof.
  intros H1 H2.
  destruct (DeviceCodes_registered _ _ H1) as (-> & _).
  destruct (DeviceCodes_registered _ _ H2) as (-> & _).
  apply DeviceCodes_lookup_Some in H1. apply DeviceCodes_lookup_Some in H2.
  unfold DeviceCodes_list in H1, H2.
  repeat (apply elem_of_cons in H1 as [[= -> ->]|H1];
          [repeat (apply elem_of_cons in H2 as [[= -> ->]|H2];
                   [intros; first [reflexivity | discriminate]|]);
           apply elem_of_nil in H2; contradiction|]).
  apply elem_of_nil in H1. contradiction.
Qed.

(** X5.  The device name reaches the frame only through its code:
    different registered names always give different read requests, and
    all names missing from [DeviceCodes] give the same frame, for all
    four read and write builders. *)
Theorem device_names_in_frames (h : station) (d1 d2 : string) (offset numPoints : Z) :
  (forall c1 c2 : string,
     DeviceCodes !! d1 = Some c1 -> DeviceCodes !! d2 = Some c2 -> d1 <> d2 ->
     BuildReadRequest h d1 offset numPoints <> BuildReadRequest h d2 offset numPoints
     /\ BuildBitReadRequest h d1 offset numPoints
        <> BuildBitReadRequest h d2 offset numPoints)
  /\ (DeviceCodes !! d1 = None -> DeviceCodes !! d2 = None ->
      BuildReadRequest h d1 offset numPoints = BuildReadRequest h d2 offset numPoints
      /\ BuildBitReadRequest h d1 offset numPoints
         = BuildBitReadRequest h d2 offset numPoints
      /\ forall writeData : slice,
           BuildWriteRequest h d1 offset numPoints writeData
           = BuildWriteRequest h d2 offset numPoints writeData
           /\ BuildBitWriteRequest h d1 offset numPoints writeData
              = BuildBitWriteRequest h d2 offset numPoints writeData).
Proof.
  split.
  - intros c1 c2 H1 H2 Hne.
    assert (Hc : DeviceCodes_at d1 <> DeviceCodes_at d2).
    { intros Hc. apply Hne. exact (DeviceCodes_at_inj _ _ _ _ H1 H2 Hc). }
    split.
    + rewrite !BuildReadRequest_eq. intros H.
      apply Return_inj, read_frames_equal_iff in H as (H & _). auto.
    + rewrite !BuildBitReadRequest_eq. intros H.
      apply Return_inj, read_frames_equal_iff in H as (H & _). auto.
  - intros H1 H2.
    apply DeviceCodes_unregistered in H1. apply DeviceCodes_unregistered in H2.
    rewrite BuildReadRequest_eq, BuildBitReadRequest_eq,
      (BuildReadRequest_eq h d2), (BuildBitReadRequest_eq h d2).
    unfold read_body. rewrite H1, H2.
    split; [reflexivity|]. split; [reflexivity|].
    intros wd. unfold BuildWriteRequest, BuildBitWriteRequest.
    rewrite !buildWriteRequestHelper_eq by reflexivity.
    unfold write_body. rewrite H1, H2. split; reflexivity.
Qed.

Lemma device_names_in_frames_witness :
  BuildReadRequest NewLocalStation "D" 100 1 <> BuildReadRequest NewLocalStation "W" 100 1
  /\ BuildReadRequest NewLocalStation "ZR" 100 1 = BuildReadRequest NewLocalStation "d" 100 1.
Proof.
  pose proof (device_names_in_frames NewLocalStation "D" "W" 100 1) as (H1 & _).
  pose proof (device_names_in_frames NewLocalStation "ZR" "d" 100 1) as (_ & H2).
  split.
  - apply (H1 "A8" "B4" eq_refl eq_refl). discriminate.
  - apply (H2 eq_refl eq_refl).
Defined.

Lemma frame_of_read_split (h : station) (sub deviceName : string) (offset numPoints : Z) :
  strlen sub = 4 ->
  frame_of h (read_body sub deviceName offset numPoints)
  = (header h +:+ hex_of_bytes (low_bytes 2 ((22 + strlen (DeviceCodes_at deviceName)) / 2))
     +:+ MONITORING_TIMER +:+ READ_COMMAND)
    +:+ sub
    +:+ (hex_of_bytes (low_bytes 3 offset) +:+ DeviceCodes_at deviceName +:+
         hex_of_bytes (low_bytes 2 numPoints)).
Proof.
  intros Hsub. unfold frame_of. rewrite strlen_read_body, Hsub.
  unfold read_body. rewrite !append_assoc. reflexivity.
Qed.

Lemma frame_of_write_split (h : station) (sub deviceName : string) (offset numPoints : Z)
    (payload : list byte) :
  strlen sub = 4 ->
  frame_of h (write_body sub deviceName offset numPoints payload)
  = (header h +:+ hex_of_bytes (low_bytes 2
       ((22 + strlen (DeviceCodes_at deviceName) + 2 * Z.of_nat (length payload)) / 2))
     +:+ MONITORING_TIMER +:+ WRITE_COMMAND)
    +:+ sub
    +:+ (hex_of_bytes (low_bytes 3 offset) +:+ DeviceCodes_at deviceName +:+
         hex_of_bytes (low_bytes 2 numPoints) +:+ hex_of_bytes payload).
Proof.
  intros Hsub. unfold frame_of. rewrite strlen_write_body, Hsub.
  unfold write_body. rewrite !append_assoc. reflexivity.
Qed.

(** X6.  The word and the bit builders differ in the sub-command and in
    nothing else: the bit frame is the word frame with "0100" in place
    of "0000" at the four characters that follow the header, the data
    length, the monitoring timer and the command; a write builder panics
    exactly when the other one does. *)
Theorem bit_and_word_frames (h : station) (deviceName : string) (offset numPoints : Z) :
  (exists pre post : string,
     String.length pre = (String.length (header h) + 12)%nat
     /\ BuildReadRequest h deviceName offset numPoints
        = Return (pre +:+ "0000" +:+ post)
     /\ BuildBitReadRequest h deviceName offset numPoints
        = Return (pre +:+ "0100" +:+ post))
  /\ (forall writeData : slice,
        (forall msg : string,
           BuildWriteRequest h deviceName offset numPoints writeData = Panic msg
           <-> BuildBitWriteRequest h deviceName offset numPoints writeData = Panic msg)
        /\ (forall frame : string,
              BuildWriteRequest h deviceName offset numPoints writeData = Return frame ->
              exists pre post : string,
                String.length pre = (String.length (header h) + 12)%nat
                /\ frame = pre +:+ "0000" +:+ post
                /\ BuildBitWriteRequest h deviceName offset numPoints writeData
                   = Return (pre +:+ "0100" +:+ post))).
Proof.
  assert (Hpre : forall dl cmd : string,
            String.length dl = 4%nat -> String.length cmd = 4%nat ->
            String.length (header h +:+ dl +:+ MONITORING_TIMER +:+ cmd)
            = (String.length (header h) + 12)%nat).
  { intros dl cmd Hd Hc. rewrite !length_append, Hd, Hc. reflexivity. }
  split.
  - do 2 eexists.
    rewrite BuildReadRequest_eq, BuildBitReadRequest_eq.
    rewrite !frame_of_read_split by reflexivity.
    split; [|split; reflexivity].
    apply Hpre; [|reflexivity].
    rewrite length_hex_of_bytes, length_low_bytes. reflexivity.
  - intros wd. unfold BuildWriteRequest, BuildBitWriteRequest.
    rewrite !buildWriteRequestHelper_eq by reflexivity.
    destruct (slice_expr _ 0 _) as [writeB|msg0]; rewrite ?Go_bind_Return.
    + split; [intros msg; split; discriminate|].
      intros frame H. apply Return_inj in H. subst frame.
      rewrite !frame_of_write_split by reflexivity.
      do 2 eexists. split; [|split; reflexivity].
      apply Hpre; [|reflexivity].
      rewrite length_hex_of_bytes, length_low_bytes. reflexivity.
    + split; [intros msg; split; intros H; exact H|].
      intros frame H. discriminate H.
Qed.

Lemma BuildReadRequest_same_frame_iff_witness :
  BuildReadRequest NewLocalStation "D" 100 1
  = BuildReadRequest NewLocalStation "D" (100 + 2 ^ 24) (1 - 2 ^ 16).
Proof.
  apply (proj2 (BuildReadRequest_same_frame_iff NewLocalStation "D" "D"
                  100 (100 + 2 ^ 24) 1 (1 - 2 ^ 16))).
  repeat split.
Defined.

Lemma bit_and_word_frames_witness :
  exists pre post : string,
    String.length pre = (String.length (header NewLocalStation) + 12)%nat
    /\ write_frame_D_100_2 = pre +:+ "0000" +:+ post
    /\ BuildBitWriteRequest NewLocalStation "D" 100 2
         (slice_of [x01; x02; x03; x04; x05; x06])
       = Return (pre +:+ "0100" +:+ post).
Proof.
  pose proof (bit_and_word_frames NewLocalStation "D" 100 2) as (_ & H).
  destruct (H (slice_of [x01; x02; x03; x04; x05; x06])) as (_ & H2).
  apply (H2 write_frame_D_100_2). vm_compute. reflexivity.
Defined.

Lemma decodes_before_base (t : string) (tail : list byte) :
  decodes t tail -> decodes_before 0 t tail.
Proof. intros H. exists []. split; [reflexivity|exact H]. Qed.

Lemma decodes_before_append (a b : nat) (s t : string) (tail : list byte) :
  decodes_to a s -> decodes_before b t tail ->
  decodes_before (a + b) (s +:+ t) tail.
Proof.
  intros (xs & Hs & Hx) (ys & Hy & Ht). exists (xs ++ ys).
  split; [rewrite length_app; lia|].
  rewrite <- app_assoc. apply decodes_append; assumption.
Qed.

Lemma decodes_before_write_frame (h : station) (sub deviceName code : string)
    (offset numPoints : Z) (payload : list byte) :
  documented_widths h -> decodes_to 2 sub ->
  DeviceCodes !! deviceName = Some code ->
  decodes_before 21 (frame_of h (write_body sub deviceName offset numPoints payload))
                 payload.
Proof.
  intros Hw Hsub Hreg.
  destruct (DeviceCodes_registered _ _ Hreg) as (Hat & _ & b & Hb).
  unfold frame_of, write_body.
  apply (decodes_before_append 7 14); [apply decodes_to_header, Hw|].
  apply (decodes_before_append 2 12); [apply (decodes_to_hex_of_bytes (low_bytes 2 _))|].
  apply (decodes_before_append 2 10); [exists [x10; x00]; split; reflexivity|].
  apply (decodes_before_append 2 8); [exists [x01; x14]; split; reflexivity|].
  apply (decodes_before_append 2 6); [exact Hsub|].
  apply (decodes_before_append 3 3); [apply (decodes_to_hex_of_bytes (low_bytes 3 _))|].
  apply (decodes_before_append 1 2);
    [rewrite Hat; exists [b]; split; [exact Hb|reflexivity]|].
  apply (decodes_before_append 2 0); [apply (decodes_to_hex_of_bytes (low_bytes 2 _))|].
  apply decodes_before_base, decodes_hex_of_bytes.
Qed.

(** X7.  For a station with the documented field widths, a registered
    device name, [numPoints >= 0] and at least [2*numPoints] bytes of
    [writeData], the frames of [BuildWriteRequest] and
    [BuildBitWriteRequest] hex-decode without error to
    [21 + 2*numPoints] bytes, the last [2*numPoints] of which are the
    first [2*numPoints] bytes of [writeData], unchanged. *)
Theorem BuildWriteRequest_decoded (h : station) (deviceName code : string)
    (offset numPoints : Z) (writeData : slice) :
  documented_widths h ->
  DeviceCodes !! deviceName = Some code ->
  0 <= numPoints ->
  2 * numPoints <= len writeData ->
  len writeData <= MaxInt64 ->
  (exists (frame : string) (decoded : list byte),
     BuildWriteRequest h deviceName offset numPoints writeData = Return frame
     /\ hex_DecodeString frame = (decoded, None)
     /\ Z.of_nat (length decoded) = 21 + 2 * numPoints
     /\ drop 21 decoded = take (Z.to_nat (2 * numPoints)) (elems writeData))
  /\ (exists (frame : string) (decoded : list byte),
     BuildBitWriteRequest h deviceName offset numPoints writeData = Return frame
     /\ hex_DecodeString frame = (decoded, None)
     /\ Z.of_nat (length decoded) = 21 + 2 * numPoints
     /\ drop 21 decoded = take (Z.to_nat (2 * numPoints)) (elems writeData)).
Proof.
  intros Hw Hreg Hn Hlen Hmax.
  assert (H : forall sub, strlen sub = 4 -> decodes_to 2 sub ->
            exists (frame : string) (decoded : list byte),
              buildWriteRequestHelper h deviceName offset numPoints writeData sub
              = Return frame
              /\ hex_DecodeString frame = (decoded, None)
              /\ Z.of_nat (length decoded) = 21 + 2 * numPoints
              /\ drop 21 decoded = take (Z.to_nat (2 * numPoints)) (elems writeData)).
  { intros sub Hsub Hdec.
    pose proof (buildWriteRequestHelper_within h deviceName offset numPoints
                  writeData sub Hsub Hn Hlen Hmax) as Hret.
    destruct (decodes_before_write_frame h sub deviceName code offset numPoints
                (take (Z.to_nat (2 * numPoints)) (elems writeData)) Hw Hdec Hreg)
      as (bs & Hbs & Hd).
    do 2 eexists. split; [exact Hret|]. split; [exact Hd|].
    split.
    - rewrite length_app, length_take, Hbs. unfold len in Hlen. lia.
    - rewrite drop_app_length' by (symmetry; exact Hbs). reflexivity. }
  split; apply H; first [reflexivity | eexists; split; reflexivity].
Qed.

Lemma BuildWriteRequest_decoded_witness :
  exists (frame : string) (decoded : list byte),
    BuildWriteRequest NewLocalStation "D" 100 2 (slice_of [x01; x02; x03; x04; x05; x06])
    = Return frame
    /\ hex_DecodeString frame = (decoded, None)
    /\ Z.of_nat (length decoded) = 21 + 2 * 2
    /\ drop 21 decoded = [x01; x02; x03; x04].
Proof.
  exact (proj1 (BuildWriteRequest_decoded NewLocalStation "D" "A8" 100 2
                  (slice_of [x01; x02; x03; x04; x05; x06])
                  documented_widths_NewLocalStation eq_refl
                  ltac:(lia) ltac:(vm_compute; discriminate)
                  ltac:(vm_compute; discriminate))).
Defined.

Lemma wrap64_negative (z : Z) : MinInt64 <= z < 0 -> wrap64 z = z.
Proof. intros H. apply wrap64_id. unfold is_int64, MinInt64, MaxInt64 in *. lia. Qed.

(** X8.  A negative [numPoints] (from -2^62 on, where doubling does not
    wrap) makes [BuildWriteRequest] and [BuildBitWriteRequest] panic on
    the payload slice, whatever the device name, the offset and the
    write data are. *)
Theorem write_builders_negative_numPoints (h : station) (deviceName : string)
    (offset numPoints : Z) (writeData : slice) :
  - 2 ^ 62 <= numPoints < 0 ->
  BuildWriteRequest h deviceName offset numPoints writeData
  = Panic "runtime error: slice bounds out of range"
  /\ BuildBitWriteRequest h deviceName offset numPoints writeData
     = Panic "runtime error: slice bounds out of range".
Proof.
  intros Hn. unfold BuildWriteRequest, BuildBitWriteRequest.
  rewrite !buildWriteRequestHelper_eq by reflexivity.
  rewrite wrap64_negative by (unfold MinInt64; lia).
  rewrite payload_slice_panics by lia. split; reflexivity.
Qed.

Lemma write_builders_negative_numPoints_witness :
  BuildWriteRequest NewLocalStation "D" 100 (-1) (slice_of [x01; x02])
  = Panic "runtime error: slice bounds out of range".
Proof.
  apply (write_builders_negative_numPoints NewLocalStation "D" 100 (-1)
           (slice_of [x01; x02])). lia.
Defined.

Lemma decodes_header_bytes (h : station) :
  documented_widths h ->
  exists ident : list byte,
    length ident = 5%nat /\ decodes (header h) ([x50; x00] ++ ident).
Proof.
  intros (Hn & Hp & Hu & Hs).
  destruct (hex_text_2_decodes _ Hn) as (n & Dn).
  destruct (hex_text_2_decodes _ Hp) as (p & Dp).
  destruct (hex_text_4_decodes _ Hu) as (u0 & u1 & Du).
  destruct (hex_text_2_decodes _ Hs) as (s & Ds).
  exists ([n] ++ [p] ++ [u0; u1] ++ [s]). split; [reflexivity|].
  unfold header.
  apply decodes_append; [reflexivity|].
  apply decodes_append; [exact Dn|].
  apply decodes_append; [exact Dp|].
  apply decodes_append; [exact Du|exact Ds].
Qed.

(** X9.  For a station with the documented field widths, the health
    check request hex-decodes without error to 22 bytes: [50 00], the 5
    bytes of the station identity, the data length [0D 00] and the fixed
    body; its last 7 bytes, [15:22), are the echo that [HealthCheck]
    requires at [11:18) of the response. *)
Theorem BuildHealthCheckRequest_decoded (h : station) :
  documented_widths h ->
  exists (requestStr : string) (ident : list byte),
    BuildHealthCheckRequest h = Return requestStr
    /\ length ident = 5%nat
    /\ hex_DecodeString requestStr
       = ([x50; x00] ++ ident ++ health_request_tail, None)
    /\ length ([x50; x00] ++ ident ++ health_request_tail) = 22%nat
    /\ drop 15 ([x50; x00] ++ ident ++ health_request_tail) = echo
    /\ forall header : list byte,
         length header = 11%nat ->
         health_check_ok (header ++ drop 15 ([x50; x00] ++ ident ++ health_request_tail)).
Proof.
  intros Hw. destruct (decodes_header_bytes h Hw) as (ident & Hlen & Hd).
  exists (frame_of h health_body), ident.
  split; [apply BuildHealthCheckRequest_eq|]. split; [exact Hlen|].
  assert (Hdrop : drop 15 ([x50; x00] ++ ident ++ health_request_tail) = echo).
  { destruct ident as [|a [|b [|c [|d [|e [|]]]]]]; try discriminate Hlen. reflexivity. }
  split; [|split; [|split]].
  - unfold frame_of.
    change ([x50; x00] ++ ident ++ health_request_tail)
      with (([x50; x00] ++ ident) ++ health_request_tail) at 1.
    rewrite <- app_assoc. rewrite app_assoc.
    apply decodes_append; [exact Hd|]. reflexivity.
  - rewrite !length_app, Hlen. reflexivity.
  - exact Hdrop.
  - intros header Hh. rewrite Hdrop. apply health_check_ok_echo.
    split; [rewrite length_app, Hh; reflexivity|].
    rewrite drop_app_length' by (symmetry; exact Hh). reflexivity.
Qed.

Lemma BuildHealthCheckRequest_decoded_witness :
  exists (requestStr : string) (ident : list byte),
    BuildHealthCheckRequest NewLocalStation = Return requestStr
    /\ length ident = 5%nat
    /\ hex_DecodeString requestStr
       = ([x50; x00] ++ ident ++ health_request_tail, None).
Proof.
  destruct (BuildHealthCheckRequest_decoded NewLocalStation
              documented_widths_NewLocalStation)
    as (req & ident & H1 & H2 & H3 & _).
  exists req, ident. split; [exact H1|]. split; [exact H2|exact H3].
Defined.

(** * Hex text and [hex.DecodeString] *)

Lemma string_pair_ind (P : string -> Prop) :
  P "" -> (forall c, P (String c "")) ->
  (forall c d s, P s -> P (String c (String d s))) ->
  forall s, P s.
Proof.
  intros H0 H1 H2 s.
  assert (H : P s /\ forall c, P (String c s)).
  { induction s as [|d s [IHs IHc]].
    - split; [exact H0|exact H1].
    - split; [apply IHc|]. intros c. apply H2, IHs. }
  exact (proj1 H).
Qed.

Lemma all_hex_append (a b : string) : all_hex (a +:+ b) = all_hex a && all_hex b.
Proof.
  string_induction a; [reflexivity|].
  rewrite IH. apply andb_assoc.
Qed.

Lemma all_hex_hex_of_bytes (bs : list byte) : all_hex (hex_of_bytes bs) = true.
Proof.
  induction bs as [|b bs IH]; [reflexivity|].
  destruct (decodes_hex_digits b) as (hi & lo & Hhi & Hlo & _).
  cbn [hex_of_bytes all_hex]. unfold is_hex_char. rewrite Hhi, Hlo, IH. reflexivity.
Qed.

Lemma all_hex_DeviceCodes_at (deviceName : string) :
  all_hex (DeviceCodes_at deviceName) = true.
Proof.
  destruct (DeviceCodes !! deviceName) as [code|] eqn:E.
  - destruct (DeviceCodes_registered _ _ E) as (-> & _).
    apply DeviceCodes_lookup_Some in E. unfold DeviceCodes_list in E.
    repeat (apply elem_of_cons in E as [[= -> ->]|E]; [reflexivity|]).
    apply elem_of_nil in E. contradiction.
  - rewrite (DeviceCodes_unregistered _ E). reflexivity.
Qed.

(** Text of hex digits decodes when its length is even, and fails with
    [ErrLength] when it is odd. *)
Lemma hex_DecodeString_all_hex (s : string) :
  all_hex s = true ->
  snd (hex_DecodeString s)
  = if Nat.even (String.length s) then None else Some hex_ErrLength.
Proof.
  induction s as [|c|c d s IH] using string_pair_ind; intros H.
  - reflexivity.
  - cbn [all_hex] in H. unfold is_hex_char in H. cbn [hex_DecodeString].
    destruct (fromHexChar c); [reflexivity|discriminate H].
  - cbn [all_hex] in H. unfold is_hex_char in H. cbn [hex_DecodeString].
    destruct (fromHexChar c); [|discriminate H].
    destruct (fromHexChar d); [|discriminate H].
    cbn [andb] in H. specialize (IH H).
    destruct (hex_DecodeString s) as [bs err]. exact IH.
Qed.

(** Text with another character fails with [InvalidByteError] at such
    a character. *)
Lemma hex_DecodeString_not_all_hex (s : string) :
  all_hex s = false ->
  exists c : ascii,
    is_hex_char c = false
    /\ snd (hex_DecodeString s) = Some (hex_InvalidByteError c).
Proof.
  induction s as [|c|c d s IH] using string_pair_ind; intros H.
  - discriminate H.
  - cbn [all_hex] in H. cbn [hex_DecodeString]. unfold is_hex_char in *.
    exists c. destruct (fromHexChar c); [discriminate H|]. split; reflexivity.
  - cbn [all_hex] in H. cbn [hex_DecodeString].
    destruct (fromHexChar c) as [a|] eqn:Ec;
      [|exists c; unfold is_hex_char; rewrite Ec; split; reflexivity].
    destruct (fromHexChar d) as [b|] eqn:Ed;
      [|exists d; unfold is_hex_char; rewrite Ed; split; reflexivity].
    unfold is_hex_char in H. rewrite Ec, Ed in H. cbn [andb] in H.
    destruct (IH H) as (x & Hx & Hs). exists x. split; [exact Hx|].
    destruct (hex_DecodeString s) as [bs err]. exact Hs.
Qed.

(** Appending hex digits in even number does not change the error. *)
Lemma hex_DecodeString_error_prefix (s t : string) :
  all_hex t = true -> Nat.even (String.length t) = true ->
  snd (hex_DecodeString (s +:+ t)) = snd (hex_DecodeString s).
Proof.
  intros Ht Hev.
  induction s as [|c|c d s IH] using string_pair_ind.
  - rewrite append_empty_l, (hex_DecodeString_all_hex t Ht), Hev. reflexivity.
  - rewrite append_cons, append_empty_l.
    destruct t as [|d t]; [reflexivity|].
    cbn [all_hex] in Ht. apply andb_true_iff in Ht as [Hd Ht].
    unfold is_hex_char in Hd. cbn [hex_DecodeString].
    destruct (fromHexChar c); [|reflexivity].
    destruct (fromHexChar d); [|discriminate Hd].
    pose proof (hex_DecodeString_all_hex t Ht) as Hs.
    cbn [String.length] in Hev. rewrite Nat.even_succ in Hev.
    rewrite <- Nat.negb_even in Hev. apply negb_true_iff in Hev.
    rewrite Hev in Hs.
    destruct (hex_DecodeString t) as [bs err]. exact Hs.
  - rewrite !append_cons. cbn [hex_DecodeString].
    destruct (fromHexChar c); [|reflexivity].
    destruct (fromHexChar d); [|reflexivity].
    destruct (hex_DecodeString (s +:+ t)) as [bs err].
    destruct (hex_DecodeString s) as [bs' err']. exact IH.
Qed.

Lemma even_length_append (a b : string) :
  Nat.even (String.length (a +:+ b))
  = negb (xorb (Nat.even (String.length a)) (Nat.even (String.length b))).
Proof.
  rewrite length_append, Nat.even_add.
  destruct (Nat.even (String.length a)), (Nat.even (String.length b)); reflexivity.
Qed.

Lemma even_length_hex_of_bytes (bs : list byte) :
  Nat.even (String.length (hex_of_bytes bs)) = true.
Proof. rewrite length_hex_of_bytes. apply Nat.even_spec. exists (length bs). lia. Qed.

Lemma even_length_DeviceCodes_at (deviceName : string) :
  Nat.even (String.length (DeviceCodes_at deviceName)) = true.
Proof.
  destruct (DeviceCodes !! deviceName) as [code|] eqn:E.
  - destruct (DeviceCodes_registered _ _ E) as (-> & -> & _). reflexivity.
  - rewrite (DeviceCodes_unregistered _ E). reflexivity.
Qed.

(** What follows the header in a frame is hex text of even length. *)
Lemma frame_rest_hex (body : string) :
  all_hex body = true -> Nat.even (String.length body) = true ->
  all_hex (hex_of_bytes (low_bytes 2 (strlen body / 2)) +:+ body) = true
  /\ Nat.even (String.length (hex_of_bytes (low_bytes 2 (strlen body / 2)) +:+ body))
     = true.
Proof.
  intros Hh He.
  rewrite all_hex_append, all_hex_hex_of_bytes, Hh.
  rewrite even_length_append, even_length_hex_of_bytes, He. split; reflexivity.
Qed.

Lemma read_body_hex (sub deviceName : string) (offset numPoints : Z) :
  all_hex sub = true -> Nat.even (String.length sub) = true ->
  all_hex (read_body sub deviceName offset numPoints) = true
  /\ Nat.even (String.length (read_body sub deviceName offset numPoints)) = true.
Proof.
  intros Hh He. unfold read_body.
  rewrite !all_hex_append, !all_hex_hex_of_bytes, all_hex_DeviceCodes_at, Hh.
  rewrite !even_length_append, !even_length_hex_of_bytes,
    even_length_DeviceCodes_at, He.
  split; reflexivity.
Qed.

Lemma write_body_hex (sub deviceName : string) (offset numPoints : Z)
    (payload : list byte) :
  all_hex sub = true -> Nat.even (String.length sub) = true ->
  all_hex (write_body sub deviceName offset numPoints payload) = true
  /\ Nat.even (String.length (write_body sub deviceName offset numPoints payload))
     = true.
Proof.
  intros Hh He. unfold write_body.
  rewrite !all_hex_append, !all_hex_hex_of_bytes, all_hex_DeviceCodes_at, Hh.
  rewrite !even_length_append, !even_length_hex_of_bytes,
    even_length_DeviceCodes_at, He.
  split; reflexivity.
Qed.

(** The decoding error of a frame is the decoding error of its header. *)
Lemma frame_of_decode_error (h : station) (body : string) :
  all_hex body = true -> Nat.even (String.length body) = true ->
  snd (hex_DecodeString (frame_of h body)) = snd (hex_DecodeString (header h)).
Proof.
  intros Hh He. unfold frame_of.
  destruct (frame_rest_hex body Hh He) as [H1 H2].
  apply hex_DecodeString_error_prefix; assumption.
Qed.

(** * The client: [Read], [BitRead], [Write], [BitWrite] *)

Lemma make_bytes_ok (n : Z) :
  0 <= n <= maxAlloc -> make_bytes n = Return (make (Z.to_nat n) (Z.to_nat n)).
Proof.
  intros H. unfold make_bytes.
  assert (Hc : (0 <=? n) && (n <=? maxAlloc) = true)
    by (rewrite andb_true_iff, !Z.leb_le; lia).
  rewrite Hc. reflexivity.
Qed.

Lemma make_bytes_negative (n : Z) :
  n < 0 -> make_bytes n = Panic "runtime error: makeslice: len out of range".
Proof.
  intros H. unfold make_bytes.
  destruct (0 <=? n) eqn:E; [apply Z.leb_le in E; lia|reflexivity].
Qed.

(** The slice [readBuff[:readLen]] after a read of [received] into a
    zeroed buffer of [size] bytes. *)
Lemma read_into_buffer (size : nat) (received : list byte) :
  exists resp : slice,
    slice_expr
      (mkSlice (take size received
                ++ drop (length (take size received)) (replicate size x00)) [])
      0 (Z.of_nat (length (take size received)))
    = Return resp
    /\ elems resp = take size received
    /\ cap resp = Z.of_nat size.
Proof.
  set (data := take size received).
  assert (Hd : (length data <= size)%nat) by (subst data; rewrite length_take; lia).
  rewrite slice_expr_within.
  2: lia.
  2: { unfold len. cbn [elems]. rewrite length_app. lia. }
  eexists. split; [reflexivity|]. unfold cap, byte_range. cbn [elems spare].
  rewrite Nat2Z.id, drop_0, take_app_length, app_nil_r, drop_app_length.
  split; [reflexivity|].
  rewrite length_app, length_drop, length_replicate. lia.
Qed.

Lemma readHelper_exchange (c : client3E) (requestStr : string) (numPoints : Z)
    (payload : list byte) :
  hex_DecodeString requestStr = (payload, None) ->
  -11 <= numPoints -> 22 + 2 * numPoints <= maxAlloc ->
  exchange c payload (Z.to_nat (22 + 2 * numPoints)) (readHelper c requestStr numPoints).
Proof.
  intros Hdec Hlo Hhi. unfold exchange, readHelper. rewrite Hdec.
  destruct (conn_Write (conn c) payload) as [e|]; [reflexivity|].
  assert (Hmax : maxAlloc < 2 ^ 62) by (vm_compute; reflexivity).
  rewrite (wrap64_id (2 * numPoints))
    by (unfold is_int64, MinInt64, MaxInt64; lia).
  rewrite wrap64_id by (unfold is_int64, MinInt64, MaxInt64; lia).
  rewrite make_bytes_ok, Go_bind_Return by lia.
  unfold make. cbn [elems]. rewrite length_replicate.
  destruct (conn_Read (conn c) (Z.to_nat (22 + 2 * numPoints))) as [received [e|]];
    [reflexivity|].
  destruct (read_into_buffer (Z.to_nat (22 + 2 * numPoints)) received)
    as (resp & -> & He & Hc).
  exists resp. split; [reflexivity|]. split; assumption.
Qed.

Lemma writeHelper_exchange (c : client3E) (requestStr : string) (payload : list byte) :
  hex_DecodeString requestStr = (payload, None) ->
  exchange c payload 22 (writeHelper c requestStr).
Proof.
  intros Hdec. unfold exchange, writeHelper. rewrite Hdec.
  destruct (conn_Write (conn c) payload) as [e|]; [reflexivity|].
  destruct (conn_Read (conn c) 22) as [received [e|]]; [reflexivity|].
  destruct (read_into_buffer 22 received) as (resp & Hs & He & Hc).
  cbv zeta. change (elems (make 22 22)) with (replicate 22 x00).
  rewrite Hs. exists resp. split; [reflexivity|]. split; assumption.
Qed.

Lemma decode_with_error (s : string) (e : option error) :
  snd (hex_DecodeString s) = e ->
  exists bs : list byte, hex_DecodeString s = (bs, e).
Proof. destruct (hex_DecodeString s) as [bs err]. intros <-. exists bs. reflexivity. Qed.

Lemma read_frame_decode_error (h : station) (bit : bool) (deviceName : string)
    (offset numPoints : Z) :
  snd (hex_DecodeString
         (frame_of h (read_body (if bit then BIT_READ_SUB_COMMAND else READ_SUB_COMMAND)
                        deviceName offset numPoints)))
  = snd (hex_DecodeString (header h)).
Proof.
  destruct (read_body_hex (if bit then BIT_READ_SUB_COMMAND else READ_SUB_COMMAND)
              deviceName offset numPoints) as [H1 H2];
    [destruct bit; reflexivity..|].
  apply frame_of_decode_error; assumption.
Qed.

Lemma write_frame_decode_error (h : station) (bit : bool) (deviceName : string)
    (offset numPoints : Z) (payload : list byte) :
  snd (hex_DecodeString
         (frame_of h (write_body (if bit then BIT_WRITE_SUB_COMMAND else WRITE_SUB_COMMAND)
                        deviceName offset numPoints payload)))
  = snd (hex_DecodeString (header h)).
Proof.
  destruct (write_body_hex (if bit then BIT_WRITE_SUB_COMMAND else WRITE_SUB_COMMAND)
              deviceName offset numPoints payload) as [H1 H2];
    [destruct bit; reflexivity..|].
  apply frame_of_decode_error; assumption.
Qed.

Lemma health_frame_decode_error (h : station) :
  snd (hex_DecodeString (frame_of h health_body)) = snd (hex_DecodeString (header h)).
Proof. apply frame_of_decode_error; reflexivity. Qed.

(** X10.  The station identity is never validated, and it decides
    whether a request can be sent: the header decodes exactly when its
    text consists of hex digits in even number.  When it does not,
    [Read], [BitRead], [HealthCheck] and - once their frame is built -
    [Write] and [BitWrite] return the error of [hex.DecodeString] for
    the header, [ErrLength] or [InvalidByteError], on any connection. *)
Theorem station_text_decides_request_error (c : client3E) :
  (snd (hex_DecodeString (header (stn c))) = None
   <-> all_hex (header (stn c)) = true
       /\ Nat.even (String.length (header (stn c))) = true)
  /\ forall e : error,
       snd (hex_DecodeString (header (stn c))) = Some e ->
       (e = hex_ErrLength
        \/ exists ch : ascii, is_hex_char ch = false /\ e = hex_InvalidByteError ch)
       /\ HealthCheck c = Return (Some e)
       /\ (forall deviceName offset numPoints,
             Read c deviceName offset numPoints = Return (nil_slice, Some e)
             /\ BitRead c deviceName offset numPoints = Return (nil_slice, Some e))
       /\ (forall deviceName offset numPoints writeData frame,
             (BuildWriteRequest (stn c) deviceName offset numPoints writeData
              = Return frame ->
              Write c deviceName offset numPoints writeData
              = Return (nil_slice, Some e))
             /\ (BuildBitWriteRequest (stn c) deviceName offset numPoints writeData
                 = Return frame ->
                 BitWrite c deviceName offset numPoints writeData
                 = Return (nil_slice, Some e))).
Proof.
  assert (Hchar : forall s : string,
            (all_hex s = true /\ Nat.even (String.length s) = true
             /\ snd (hex_DecodeString s) = None)
            \/ (snd (hex_DecodeString s) = Some hex_ErrLength
                /\ all_hex s = true /\ Nat.even (String.length s) = false)
            \/ (exists ch, is_hex_char ch = false
                           /\ snd (hex_DecodeString s) = Some (hex_InvalidByteError ch)
                           /\ all_hex s = false)).
  { intros s. destruct (all_hex s) eqn:Eh.
    - pose proof (hex_DecodeString_all_hex s Eh) as H.
      destruct (Nat.even (String.length s)); [left|right; left]; repeat split; exact H.
    - destruct (hex_DecodeString_not_all_hex s Eh) as (ch & Hc & H).
      right. right. exists ch. repeat split; assumption. }
  split.
  - destruct (Hchar (header (stn c)))
      as [(H1 & H2 & H3)|[(H1 & H2 & H3)|(ch & H1 & H2 & H3)]].
    + split; [intros _; split; assumption|intros _; exact H3].
    + rewrite H1, H3. split; [discriminate|intros [_ H]; discriminate H].
    + rewrite H2, H3. split; [discriminate|intros [H _]; discriminate H].
  - intros e He. split; [|split; [|split]].
    + destruct (Hchar (header (stn c)))
        as [(_ & _ & H3)|[(H1 & _)|(ch & H1 & H2 & _)]].
      * rewrite H3 in He. discriminate He.
      * left. congruence.
      * right. exists ch. split; [exact H1|congruence].
    + unfold HealthCheck. rewrite BuildHealthCheckRequest_eq, Go_bind_Return.
      destruct (decode_with_error (frame_of (stn c) health_body) (Some e)) as [bs ->];
        [rewrite health_frame_decode_error; exact He|reflexivity].
    + intros d o n. unfold Read, BitRead.
      rewrite BuildReadRequest_eq, BuildBitReadRequest_eq, !Go_bind_Return.
      unfold readHelper.
      destruct (decode_with_error
                  (frame_of (stn c) (read_body READ_SUB_COMMAND d o n)) (Some e))
        as [bs ->]; [rewrite (read_frame_decode_error (stn c) false); exact He|].
      destruct (decode_with_error
                  (frame_of (stn c) (read_body BIT_READ_SUB_COMMAND d o n)) (Some e))
        as [bs' ->]; [rewrite (read_frame_decode_error (stn c) true); exact He|].
      split; reflexivity.
    + intros d o n wd frame. unfold Write, BitWrite. split; intros Hb.
      * rewrite Hb, Go_bind_Return.
        apply write_frame_inv in Hb as (writeB & _ & ->); [|reflexivity].
        unfold writeHelper.
        destruct (decode_with_error
                    (frame_of (stn c) (write_body WRITE_SUB_COMMAND d o n (elems writeB)))
                    (Some e))
          as [bs ->]; [rewrite (write_frame_decode_error (stn c) false); exact He|].
        reflexivity.
      * rewrite Hb, Go_bind_Return.
        apply write_frame_inv in Hb as (writeB & _ & ->); [|reflexivity].
        unfold writeHelper.
        destruct (decode_with_error
                    (frame_of (stn c) (write_body BIT_WRITE_SUB_COMMAND d o n (elems writeB)))
                    (Some e))
          as [bs ->]; [rewrite (write_frame_decode_error (stn c) true); exact He|].
        reflexivity.
Qed.

Lemma station_text_decides_request_error_witness :
  HealthCheck (mkClient "192.168.0.1:5007" station_bad_hex (answering good_response))
  = Return (Some (hex_InvalidByteError "G"))
  /\ Read (mkClient "192.168.0.1:5007" station_bad_hex (answering good_response)) "D" 100 1
     = Return (nil_slice, Some (hex_InvalidByteError "G")).
Proof.
  pose proof (station_text_decides_request_error
                (mkClient "192.168.0.1:5007" station_bad_hex (answering good_response)))
    as (_ & H).
  destruct (H (hex_InvalidByteError "G") eq_refl) as (_ & H1 & H2 & _).
  split; [exact H1|exact (proj1 (H2 "D" 100 1))].
Defined.

(** X11.  With a header that decodes and [numPoints >= -11], [Read] and
    [BitRead] send the hex-decoded request and read once into a buffer
    of [22 + 2*numPoints] bytes: an error of the connection is returned
    as it is, and otherwise the received bytes, cut to the buffer, are
    returned with a nil error whatever they contain - the end code is
    not looked at. *)
Theorem Read_exchange (c : client3E) (deviceName : string) (offset numPoints : Z) :
  snd (hex_DecodeString (header (stn c))) = None ->
  -11 <= numPoints -> 22 + 2 * numPoints <= maxAlloc ->
  (exists (requestStr : string) (payload : list byte),
     BuildReadRequest (stn c) deviceName offset numPoints = Return requestStr
     /\ hex_DecodeString requestStr = (payload, None)
     /\ exchange c payload (Z.to_nat (22 + 2 * numPoints))
          (Read c deviceName offset numPoints))
  /\ (exists (requestStr : string) (payload : list byte),
     BuildBitReadRequest (stn c) deviceName offset numPoints = Return requestStr
     /\ hex_DecodeString requestStr = (payload, None)
     /\ exchange c payload (Z.to_nat (22 + 2 * numPoints))
          (BitRead c deviceName offset numPoints)).
Proof.
  intros Hh Hlo Hhi. split.
  - destruct (decode_with_error
                (frame_of (stn c) (read_body READ_SUB_COMMAND deviceName offset numPoints))
                None) as [payload Hd];
      [rewrite (read_frame_decode_error (stn c) false); exact Hh|].
    do 2 eexists. split; [apply BuildReadRequest_eq|]. split; [exact Hd|].
    unfold Read. rewrite BuildReadRequest_eq, Go_bind_Return.
    apply readHelper_exchange; assumption.
  - destruct (decode_with_error
                (frame_of (stn c) (read_body BIT_READ_SUB_COMMAND deviceName offset numPoints))
                None) as [payload Hd];
      [rewrite (read_frame_decode_error (stn c) true); exact Hh|].
    do 2 eexists. split; [apply BuildBitReadRequest_eq|]. split; [exact Hd|].
    unfold BitRead. rewrite BuildBitReadRequest_eq, Go_bind_Return.
    apply readHelper_exchange; assumption.
Qed.

Lemma Read_exchange_witness :
  exists (requestStr : string) (payload : list byte),
    BuildReadRequest NewLocalStation "D" 100 1 = Return requestStr
    /\ hex_DecodeString requestStr = (payload, None)
    /\ exchange (mkClient "192.168.0.1:5007" NewLocalStation (answering good_response))
         payload (Z.to_nat (22 + 2 * 1))
         (Read (mkClient "192.168.0.1:5007" NewLocalStation (answering good_response))
               "D" 100 1).
Proof.
  exact (proj1 (Read_exchange
                  (mkClient "192.168.0.1:5007" NewLocalStation (answering good_response))
                  "D" 100 1 eq_refl ltac:(lia) ltac:(vm_compute; discriminate))).
Defined.

(** X12.  With [numPoints < -11] (from -2^62 on) the receive buffer of
    [Read] and [BitRead] would have a negative length: once the
    connection has accepted the request the call panics in [make]; when
    the connection refuses the request its error is returned instead. *)
Theorem Read_negative_buffer (c : client3E) (deviceName : string) (offset numPoints : Z) :
  snd (hex_DecodeString (header (stn c))) = None ->
  - 2 ^ 62 <= numPoints < -11 ->
  (exists (requestStr : string) (payload : list byte),
     BuildReadRequest (stn c) deviceName offset numPoints = Return requestStr
     /\ hex_DecodeString requestStr = (payload, None)
     /\ match conn_Write (conn c) payload with
        | Some e => Read c deviceName offset numPoints
                    = Return (nil_slice, Some (net_Error e))
        | None => Read c deviceName offset numPoints
                  = Panic "runtime error: makeslice: len out of range"
        end)
  /\ (exists (requestStr : string) (payload : list byte),
     BuildBitReadRequest (stn c) deviceName offset numPoints = Return requestStr
     /\ hex_DecodeString requestStr = (payload, None)
     /\ match conn_Write (conn c) payload with
        | Some e => BitRead c deviceName offset numPoints
                    = Return (nil_slice, Some (net_Error e))
        | None => BitRead c deviceName offset numPoints
                  = Panic "runtime error: makeslice: len out of range"
        end).
Proof.
  intros Hh Hn.
  assert (Hhelper : forall req payload,
            hex_DecodeString req = (payload, None) ->
            match conn_Write (conn c) payload with
            | Some e => readHelper c req numPoints = Return (nil_slice, Some (net_Error e))
            | None => readHelper c req numPoints
                      = Panic "runtime error: makeslice: len out of range"
            end).
  { intros req payload Hd. unfold readHelper. rewrite Hd.
    destruct (conn_Write (conn c) payload) as [e|]; [reflexivity|].
    rewrite (wrap64_id (2 * numPoints))
      by (unfold is_int64, MinInt64, MaxInt64; lia).
    rewrite wrap64_id by (unfold is_int64, MinInt64, MaxInt64; lia).
    rewrite make_bytes_negative by lia. reflexivity. }
  split.
  - destruct (decode_with_error
                (frame_of (stn c) (read_body READ_SUB_COMMAND deviceName offset numPoints))
                None) as [payload Hd];
      [rewrite (read_frame_decode_error (stn c) false); exact Hh|].
    do 2 eexists. split; [apply BuildReadRequest_eq|]. split; [exact Hd|].
    unfold Read. rewrite BuildReadRequest_eq, Go_bind_Return.
    apply Hhelper, Hd.
  - destruct (decode_with_error
                (frame_of (stn c) (read_body BIT_READ_SUB_COMMAND deviceName offset numPoints))
                None) as [payload Hd];
      [rewrite (read_frame_decode_error (stn c) true); exact Hh|].
    do 2 eexists. split; [apply BuildBitReadRequest_eq|]. split; [exact Hd|].
    unfold BitRead. rewrite BuildBitReadRequest_eq, Go_bind_Return.
    apply Hhelper, Hd.
Qed.

Lemma Read_negative_buffer_witness :
  Read (mkClient "192.168.0.1:5007" NewLocalStation (answering good_response)) "D" 100 (-12)
  = Panic "runtime error: makeslice: len out of range"
  /\ Read (mkClient "192.168.0.1:5007" NewLocalStation (refusing "broken pipe")) "D" 100 (-12)
     = Return (nil_slice, Some (net_Error "broken pipe")).
Proof.
  destruct (proj1 (Read_negative_buffer
                     (mkClient "192.168.0.1:5007" NewLocalStation (answering good_response))
                     "D" 100 (-12) eq_refl ltac:(lia)))
    as (req & payload & _ & _ & H1).
  destruct (proj1 (Read_negative_buffer
                     (mkClient "192.168.0.1:5007" NewLocalStation (refusing "broken pipe"))
                     "D" 100 (-12) eq_refl ltac:(lia)))
    as (req' & payload' & _ & _ & H2).
  split; [exact H1|exact H2].
Defined.

(** X13.  [Write] and [BitWrite] panic when their builder panics,
    before the connection is used.  When the frame is built and the
    header decodes, they send the hex-decoded frame and read once into a
    buffer of 22 bytes: an error of the connection is returned as it is,
    and otherwise at most the first 22 received bytes are returned with
    a nil error. *)
Theorem Write_exchange (c : client3E) (deviceName : string) (offset numPoints : Z)
    (writeData : slice) :
  (forall msg : string,
     (BuildWriteRequest (stn c) deviceName offset numPoints writeData = Panic msg ->
      Write c deviceName offset numPoints writeData = Panic msg)
     /\ (BuildBitWriteRequest (stn c) deviceName offset numPoints writeData = Panic msg ->
         BitWrite c deviceName offset numPoints writeData = Panic msg))
  /\ (snd (hex_DecodeString (header (stn c))) = None ->
      forall requestStr : string,
        (BuildWriteRequest (stn c) deviceName offset numPoints writeData
         = Return requestStr ->
         exists payload : list byte,
           hex_DecodeString requestStr = (payload, None)
           /\ exchange c payload 22 (Write c deviceName offset numPoints writeData))
        /\ (BuildBitWriteRequest (stn c) deviceName offset numPoints writeData
            = Return requestStr ->
            exists payload : list byte,
              hex_DecodeString requestStr = (payload, None)
              /\ exchange c payload 22
                   (BitWrite c deviceName offset numPoints writeData))).
Proof.
  split.
  - intros msg. unfold Write, BitWrite. split; intros ->; reflexivity.
  - intros Hh req. unfold Write, BitWrite. split; intros Hb.
    + rewrite Hb, Go_bind_Return.
      apply write_frame_inv in Hb as (writeB & _ & ->); [|reflexivity].
      destruct (decode_with_error
                  (frame_of (stn c) (write_body WRITE_SUB_COMMAND deviceName offset
                                       numPoints (elems writeB))) None)
        as [payload Hd];
        [rewrite (write_frame_decode_error (stn c) false); exact Hh|].
      exists payload. split; [exact Hd|]. apply writeHelper_exchange, Hd.
    + rewrite Hb, Go_bind_Return.
      apply write_frame_inv in Hb as (writeB & _ & ->); [|reflexivity].
      destruct (decode_with_error
                  (frame_of (stn c) (write_body BIT_WRITE_SUB_COMMAND deviceName offset
                                       numPoints (elems writeB))) None)
        as [payload Hd];
        [rewrite (write_frame_decode_error (stn c) true); exact Hh|].
      exists payload. split; [exact Hd|]. apply writeHelper_exchange, Hd.
Qed.

Lemma Write_exchange_witness :
  Write (mkClient "192.168.0.1:5007" NewLocalStation (answering good_response))
        "D" 100 1 nil_slice
  = Panic "runtime error: slice bounds out of range"
  /\ exists payload : list byte,
       hex_DecodeString write_frame_D_100_2 = (payload, None)
       /\ exchange (mkClient "192.168.0.1:5007" NewLocalStation (answering good_response))
            payload 22
            (Write (mkClient "192.168.0.1:5007" NewLocalStation (answering good_response))
                   "D" 100 2 (slice_of [x01; x02; x03; x04; x05; x06])).
Proof.
  split.
  - apply (proj1 (Write_exchange
                    (mkClient "192.168.0.1:5007" NewLocalStation (answering good_response))
                    "D" 100 1 nil_slice)).
    vm_compute. reflexivity.
  - apply (proj1 (proj2 (Write_exchange
                    (mkClient "192.168.0.1:5007" NewLocalStation (answering good_response))
                    "D" 100 2 (slice_of [x01; x02; x03; x04; x05; x06])) eq_refl
                    write_frame_D_100_2)).
    vm_compute. reflexivity.
Defined.

Lemma parser_3E_on_elems (resp : slice) (bs : list byte) :
  elems resp = bs ->
  (length bs < 22)%nat /\
    parser_3E_Process resp
    = Return (None, Some (errors_New "length must be larger than 22 byte"))
  \/ (22 <= length bs)%nat /\
     parser_3E_Process resp = Return (Some (parsed_3E bs), None).
Proof.
  intros <-. destruct (le_lt_dec 22 (length (elems resp))) as [H|H].
  - right. split; [exact H|]. apply parser_3E_Process_long. unfold len. lia.
  - left. split; [exact H|]. apply parser_3E_Process_short. unfold len. lia.
Qed.

(** X14.  Parsing what [Write] returns: since [Write] reads at most 22
    bytes and [parser_3E.Process] needs at least 22, the answer to a
    write parses only when the connection delivers 22 bytes or more in
    its one read, and the Payload is then the 11 bytes [11:22) of what
    was received; a shorter answer, such as an 11-byte acknowledgement,
    gives the length error. *)
Theorem Write_then_parse (c : client3E) (deviceName : string) (offset numPoints : Z)
    (writeData : slice) (requestStr : string) (payload received : list byte) :
  BuildWriteRequest (stn c) deviceName offset numPoints writeData = Return requestStr ->
  hex_DecodeString requestStr = (payload, None) ->
  conn_Write (conn c) payload = None ->
  conn_Read (conn c) 22 = (received, None) ->
  exists resp : slice,
    Write c deviceName offset numPoints writeData = Return (resp, None)
    /\ ((length received < 22)%nat ->
        parser_3E_Process resp
        = Return (None, Some (errors_New "length must be larger than 22 byte")))
    /\ ((22 <= length received)%nat ->
        exists r : Response,
          parser_3E_Process resp = Return (Some r, None)
          /\ EndCode r = hex_of_bytes (byte_range 9 11 received)
          /\ Payload r = byte_range 11 22 received
          /\ length (Payload r) = 11%nat).
Proof.
  intros Hb Hd Hw Hr.
  pose proof (writeHelper_exchange c requestStr payload Hd) as Hx.
  unfold exchange in Hx. rewrite Hw, Hr in Hx.
  destruct Hx as (resp & Hres & He & _).
  exists resp. split; [unfold Write; rewrite Hb, Go_bind_Return; exact Hres|].
  destruct (parser_3E_on_elems resp _ He) as [[Hl Hp]|[Hl Hp]];
    rewrite length_take in Hl.
  - split; [intros _; exact Hp|intros H; lia].
  - split; [intros H; lia|]. intros H.
    exists (parsed_3E (take 22 received)). split; [exact Hp|].
    cbn [parsed_3E EndCode Payload]. unfold byte_range.
    rewrite take_take. change (11 `min` 22)%nat with 11%nat.
    split; [reflexivity|]. split; [reflexivity|].
    rewrite length_drop, length_take. lia.
Qed.

Lemma Write_then_parse_witness :
  exists resp : slice,
    Write (mkClient "192.168.0.1:5007" NewLocalStation (answering good_response))
          "D" 100 2 (slice_of [x01; x02; x03; x04; x05; x06])
    = Return (resp, None)
    /\ parser_3E_Process resp
       = Return (None, Some (errors_New "length must be larger than 22 byte")).
Proof.
  destruct (Write_then_parse
              (mkClient "192.168.0.1:5007" NewLocalStation (answering good_response))
              "D" 100 2 (slice_of [x01; x02; x03; x04; x05; x06])
              _ _ good_response eq_refl eq_refl eq_refl eq_refl)
    as (resp & H1 & H2 & _).
  exists resp. split; [exact H1|]. apply H2. vm_compute. lia.
Defined.

(** X15.  Parsing what [Read] returns when the answer is a header of 11
    bytes followed by [numPoints] words: [Read] returns the answer
    whole, and [parser_3E.Process] accepts it only from 6 points on, the
    Payload then being the [2*numPoints] data bytes; for 0 to 5 points
    it gives the length error. *)
Theorem Read_then_parse (c : client3E) (deviceName : string) (offset numPoints : Z)
    (requestStr : string) (payload received : list byte) :
  BuildReadRequest (stn c) deviceName offset numPoints = Return requestStr ->
  hex_DecodeString requestStr = (payload, None) ->
  0 <= numPoints -> 22 + 2 * numPoints <= maxAlloc ->
  conn_Write (conn c) payload = None ->
  conn_Read (conn c) (Z.to_nat (22 + 2 * numPoints)) = (received, None) ->
  Z.of_nat (length received) = 11 + 2 * numPoints ->
  exists resp : slice,
    Read c deviceName offset numPoints = Return (resp, None)
    /\ elems resp = received
    /\ (numPoints < 6 ->
        parser_3E_Process resp
        = Return (None, Some (errors_New "length must be larger than 22 byte")))
    /\ (6 <= numPoints ->
        exists r : Response,
          parser_3E_Process resp = Return (Some r, None)
          /\ Payload r = drop 11 received
          /\ Z.of_nat (length (Payload r)) = 2 * numPoints).
Proof.
  intros Hb Hd Hn Hmax Hw Hr Hlen.
  pose proof (readHelper_exchange c requestStr numPoints payload Hd
                ltac:(lia) Hmax) as Hx.
  unfold exchange in Hx. rewrite Hw, Hr in Hx.
  destruct Hx as (resp & Hres & He & _).
  rewrite take_ge in He by lia.
  exists resp. split; [unfold Read; rewrite Hb, Go_bind_Return; exact Hres|].
  split; [exact He|].
  destruct (parser_3E_on_elems resp _ He) as [[Hl Hp]|[Hl Hp]].
  - split; [intros _; exact Hp|intros H; lia].
  - split; [intros H; lia|]. intros H.
    exists (parsed_3E received). split; [exact Hp|].
    cbn [parsed_3E Payload]. split; [reflexivity|].
    rewrite length_drop. lia.
Qed.

Lemma Read_then_parse_witness :
  exists resp : slice,
    Read (mkClient "192.168.0.1:5007" NewLocalStation
            (answering [xd0; x00; x00; xff; xff; x03; x00; x04; x00; x00; x00; x12; x34]))
         "D" 100 1
    = Return (resp, None)
    /\ elems resp = [xd0; x00; x00; xff; xff; x03; x00; x04; x00; x00; x00; x12; x34]
    /\ parser_3E_Process resp
       = Return (None, Some (errors_New "length must be larger than 22 byte")).
Proof.
  destruct (Read_then_parse
              (mkClient "192.168.0.1:5007" NewLocalStation
                 (answering [xd0; x00; x00; xff; xff; x03; x00; x04; x00; x00; x00; x12; x34]))
              "D" 100 1 _ _
              [xd0; x00; x00; xff; xff; x03; x00; x04; x00; x00; x00; x12; x34]
              eq_refl eq_refl ltac:(lia) ltac:(vm_compute; discriminate)
              eq_refl eq_refl eq_refl)
    as (resp & H1 & H2 & H3 & _).
  exists resp. split; [exact H1|]. split; [exact H2|]. apply H3. lia.
Defined.

(** X16.  [HealthCheck] never panics when the connection delivers no
    more than the 30 bytes of the receive buffer: it returns nil, or the
    error of [hex.DecodeString] for the request, or the error of the
    connection, or a liveness-check failure; a refused request is
    reported without a read. *)
Theorem HealthCheck_outcomes (c : client3E) :
  (forall size : nat, (length (fst (conn_Read (conn c) size)) <= size)%nat) ->
  exists (requestStr : string) (payload : list byte) (decodeErr : option error),
    BuildHealthCheckRequest (stn c) = Return requestStr
    /\ hex_DecodeString requestStr = (payload, decodeErr)
    /\ match decodeErr with
       | Some e => HealthCheck c = Return (Some e)
       | None =>
           match conn_Write (conn c) payload with
           | Some e => HealthCheck c = Return (Some (net_Error e))
           | None =>
               match conn_Read (conn c) 30 with
               | (_, Some e) => HealthCheck c = Return (Some (net_Error e))
               | (received, None) =>
                   (health_check_ok received /\ HealthCheck c = Return None)
                   \/ (~ health_check_ok received
                       /\ exists e : error,
                            HealthCheck c = Return (Some e) /\ liveness_failure e)
               end
           end
       end.
Proof.
  intros Hsize.
  exists (frame_of (stn c) health_body).
  destruct (hex_DecodeString (frame_of (stn c) health_body)) as [payload err] eqn:Hd.
  exists payload, err. split; [apply BuildHealthCheckRequest_eq|]. split; [reflexivity|].
  destruct err as [e|].
  { unfold HealthCheck. rewrite BuildHealthCheckRequest_eq, Go_bind_Return, Hd.
    reflexivity. }
  destruct (conn_Write (conn c) payload) as [e|] eqn:Hw.
  { unfold HealthCheck. rewrite BuildHealthCheckRequest_eq, Go_bind_Return, Hd, Hw.
    reflexivity. }
  destruct (conn_Read (conn c) 30) as [received [e|]] eqn:Hr.
  { unfold HealthCheck. rewrite BuildHealthCheckRequest_eq, Go_bind_Return, Hd, Hw, Hr.
    reflexivity. }
  assert (Hlen : (length received <= 30)%nat).
  { specialize (Hsize 30%nat). rewrite Hr in Hsize. exact Hsize. }
  rewrite (HealthCheck_reaches_verification c _ payload received
             (BuildHealthCheckRequest_eq (stn c)) Hd Hw Hr Hlen).
  assert (Hfail : forall detail : string,
            liveness_failure
              (errors_New ("plc connect test is fail: return " +:+ detail))).
  { intros detail. exists detail. reflexivity. }
  unfold health_check_ok.
  destruct (Z.of_nat (length received) =? 18) eqn:E1; cbn [negb].
  2: { right. apply Z.eqb_neq in E1. split; [intros (H & _); lia|].
       eexists. split; [reflexivity|]. apply (Hfail ("length is [" +:+ _)). }
  apply Z.eqb_eq in E1.
  destruct (String.eqb "0500" (hex_of_bytes (byte_range 11 13 received))) eqn:E2;
    cbn [negb].
  2: { right. apply String.eqb_neq in E2. split; [intros (_ & H & _); congruence|].
       eexists. split; [reflexivity|]. apply (Hfail ("header is [" +:+ _)). }
  apply String.eqb_eq in E2.
  destruct (String.eqb "4142434445" (hex_of_bytes (byte_range 13 18 received))) eqn:E3;
    cbn [negb].
  - left. apply String.eqb_eq in E3.
    change "4142434445" with (hex_of_bytes [x41; x42; x43; x44; x45]) in E3.
    apply hex_of_bytes_inj in E3.
    split; [|reflexivity]. split; [lia|]. split; congruence.
  - right. apply String.eqb_neq in E3. split.
    + intros (_ & _ & H). rewrite H in E3. apply E3. reflexivity.
    + eexists. split; [reflexivity|]. apply (Hfail ("body is [" +:+ _)).
Qed.

Lemma HealthCheck_outcomes_witness :
  exists (requestStr : string) (payload : list byte) (decodeErr : option error),
    BuildHealthCheckRequest NewLocalStation = Return requestStr
    /\ hex_DecodeString requestStr = (payload, decodeErr)
    /\ match decodeErr with
       | Some e => HealthCheck (mkClient "192.168.0.1:5007" NewLocalStation
                                  (refusing "broken pipe")) = Return (Some e)
       | None => HealthCheck (mkClient "192.168.0.1:5007" NewLocalStation
                                (refusing "broken pipe"))
                 = Return (Some (net_Error "broken pipe"))
       end.
Proof.
  destruct (HealthCheck_outcomes
              (mkClient "192.168.0.1:5007" NewLocalStation (refusing "broken pipe")))
    as (req & payload & err & H1 & H2 & H3).
  { intros size. cbn. lia. }
  exists req, payload, err. split; [exact H1|]. split; [exact H2|].
  destruct err; exact H3.
Defined.
